(** * news_scraper: a shallow embedding of [news_scraper/news_scraper.py]

    The development follows the Python module top to bottom:
    - Python [str] values are [string]s, with the few [str] methods the module
      calls ([startswith], [in], [replace], [strip], [join]);
    - a parsed document ([BeautifulSoup(response.text, 'html.parser')]) is a
      forest of [node]s, queried with [find] and [find_all]; a response says
      whether the parser accepts its body or raises ([markup_error]);
    - [datetime] values, [datetime.isoformat] and [datetime.fromisoformat]
      as CPython 3.8 to 3.10 have them; [_extract_date_with] takes the
      parser as an argument, for what holds with any version;
    - the scraper's effects (clock, rate-limit stamp, log, network) are
      threaded through a state-and-exception monad [M];
    - the three classes [NewsScraper], [NYTimesScraper] and [BBCScraper] are
      instances of one record of methods, [Scraper]. *)

From Stdlib Require Import List String Ascii Bool ZArith QArith Lia Lqa.
From Stdlib Require Import DecimalString.
Import ListNotations.

Local Open Scope string_scope.
Local Open Scope list_scope.
Local Open Scope Z_scope.

(** ** Python [str] methods used by the module *)

Module Str.

(** [s.startswith(p)] *)
Fixpoint startswith (s p : string) {struct p} : bool :=
  match p, s with
  | EmptyString, _ => true
  | String _ _, EmptyString => false
  | String a p', String b s' => Ascii.eqb b a && startswith s' p'
  end.

(** [needle in hay] *)
Fixpoint contains (needle hay : string) : bool :=
  startswith hay needle ||
  match hay with
  | EmptyString => false
  | String _ hay' => contains needle hay'
  end.

(** [s.replace(old, new)] for a one-character [old]: every occurrence is
    replaced, left to right. *)
Fixpoint replace (old : ascii) (new s : string) : string :=
  match s with
  | EmptyString => EmptyString
  | String c s' =>
      if Ascii.eqb c old then new ++ replace old new s'
      else String c (replace old new s')
  end.

(** [c.isspace()], a character being a code point below 256: TAB, LF, VT,
    FF, CR, the four separators FS, GS, RS, US, the space, NEL (133) and the
    no-break space (160). *)
Definition isspace (c : ascii) : bool :=
  let n := nat_of_ascii c in
  ((9 <=? n) && (n <=? 13) || (28 <=? n) && (n <=? 32)
   || (n =? 133) || (n =? 160))%nat.

Fixpoint lstrip (s : string) : string :=
  match s with
  | EmptyString => EmptyString
  | String c s' => if isspace c then lstrip s' else s
  end.

Fixpoint rstrip (s : string) : string :=
  match s with
  | EmptyString => EmptyString
  | String c s' =>
      match rstrip s' with
      | EmptyString => if isspace c then EmptyString else String c EmptyString
      | r => String c r
      end
  end.

(** [s.strip()] *)
Definition strip (s : string) : string := rstrip (lstrip s).

(** [sep.join(parts)] *)
Definition join (sep : string) (parts : list string) : string :=
  String.concat sep parts.

(** [s.split()]: the maximal runs of non-space characters. *)
Fixpoint split_acc (cur : string) (s : string) : list string :=
  match s with
  | EmptyString => match cur with EmptyString => [] | _ => [cur] end
  | String c s' =>
      if isspace c
      then match cur with
           | EmptyString => split_acc EmptyString s'
           | _ => cur :: split_acc EmptyString s'
           end
      else split_acc (cur ++ String c EmptyString) s'
  end.

Definition split (s : string) : list string := split_acc EmptyString s.

(** [x in l] for a list of strings *)
Definition mem (x : string) (l : list string) : bool :=
  existsb (String.eqb x) l.

(** [str(n)] for an integer *)
Definition of_int (n : Z) : string := NilZero.string_of_int (Z.to_int n).

(** [repr(s)], a character being a code point below 256.  The text is put
    between single quotes, or between double quotes when it holds a single
    quote and no double quote; the quote in use and the backslash get a
    backslash, TAB, LF and CR their letter, and the other characters that
    are not printable (below 32, from 127 to 160, and 173) their
    two-digit hexadecimal code. *)
Definition single_quote : ascii := ascii_of_nat 39.
Definition double_quote : ascii := ascii_of_nat 34.
Definition backslash : ascii := ascii_of_nat 92.

Fixpoint has_char (c : ascii) (s : string) : bool :=
  match s with
  | EmptyString => false
  | String c' s' => Ascii.eqb c' c || has_char c s'
  end.

Definition isprintable (c : ascii) : bool :=
  let n := nat_of_ascii c in
  ((32 <=? n) && (n <? 127) || (161 <=? n) && negb (n =? 173))%nat.

Definition hex_digit (n : nat) : ascii :=
  if (n <? 10)%nat then ascii_of_nat (48 + n) else ascii_of_nat (87 + n).

Definition repr_char (quote c : ascii) : string :=
  let n := nat_of_ascii c in
  if Ascii.eqb c quote || Ascii.eqb c backslash
  then String backslash (String c EmptyString)
  else if (n =? 9)%nat then String backslash "t"
  else if (n =? 10)%nat then String backslash "n"
  else if (n =? 13)%nat then String backslash "r"
  else if isprintable c then String c EmptyString
  else String backslash
         (String "x" (String (hex_digit (n / 16))
                        (String (hex_digit (n mod 16)) EmptyString))).

Fixpoint repr_chars (quote : ascii) (s : string) : string :=
  match s with
  | EmptyString => EmptyString
  | String c s' => repr_char quote c ++ repr_chars quote s'
  end.

Definition repr (s : string) : string :=
  let quote :=
    if has_char single_quote s && negb (has_char double_quote s)
    then double_quote else single_quote in
  String quote (repr_chars quote s ++ String quote EmptyString).

End Str.

Arguments Str.startswith : simpl never.
Arguments Str.contains : simpl never.

(** ** Parsed HTML

    [BeautifulSoup(text, 'html.parser')] yields a tree of tags and strings.
    The parser itself is outside the module; a document is given by its tree,
    and a response tells whether the parser accepts its body.
    Tag and attribute names are lower case, as the parser leaves them. *)

#[warnings="-register-all"]
Inductive node : Type :=
| NavigableString (s : string)
| Tag (name : string) (attrs : list (string * string)) (contents : list node).

(** A [BeautifulSoup] object: the top-level nodes of the document. *)
Definition BeautifulSoup : Type := list node.

(** Attribute filters of [find]/[find_all]: [{'k': 'v'}] and [k=True]. *)
Inductive attr_filter : Type :=
| AttrIs (k v : string)
| AttrPresent (k : string).

Module Soup.

(** [tag.get(k)] *)
Fixpoint get (k : string) (attrs : list (string * string)) : option string :=
  match attrs with
  | [] => None
  | (k', v) :: rest => if String.eqb k k' then Some v else get k rest
  end.

Definition tag_get (k : string) (n : node) : option string :=
  match n with
  | NavigableString _ => None
  | Tag _ attrs _ => get k attrs
  end.

(** [tag.text]: all the strings below the tag, concatenated.  The tree holds
    the strings that [.text] collects; comments and what [script], [style]
    and [template] elements enclose, which it passes over, are not part of
    the tree. *)
Fixpoint text (n : node) : string :=
  match n with
  | NavigableString s => s
  | Tag _ _ cs => String.concat EmptyString (map text cs)
  end.

(** [tag.descendants]: every node below the tag, in document order. *)
Fixpoint descendants (n : node) : list node :=
  match n with
  | NavigableString _ => []
  | Tag _ _ cs => flat_map (fun c => c :: descendants c) cs
  end.

Definition soup_descendants (soup : BeautifulSoup) : list node :=
  flat_map (fun c => c :: descendants c) soup.

(** Does one attribute filter accept the tag's attributes?  [class] is
    multi-valued: a filter value matches the whole attribute text or any of
    its space-separated classes. *)
Definition attr_ok (attrs : list (string * string)) (f : attr_filter) : bool :=
  match f with
  | AttrPresent k => match get k attrs with Some _ => true | None => false end
  | AttrIs k v =>
      match get k attrs with
      | None => false
      | Some v' =>
          String.eqb v v' ||
          (String.eqb k "class" && Str.mem v (Str.split v'))
      end
  end.

Definition matches (name : string) (fs : list attr_filter) (n : node) : bool :=
  match n with
  | NavigableString _ => false
  | Tag name' attrs _ => String.eqb name name' && forallb (attr_ok attrs) fs
  end.

(** [soup.find_all(name, attrs)] *)
Definition find_all (name : string) (fs : list attr_filter)
           (soup : BeautifulSoup) : list node :=
  filter (matches name fs) (soup_descendants soup).

(** [soup.find(name, attrs)]: the first match, or [None]. *)
Definition find (name : string) (fs : list attr_filter)
           (soup : BeautifulSoup) : option node :=
  hd_error (find_all name fs soup).

(** [tag.find_all(name, attrs)]: matches strictly below [tag]. *)
Definition tag_find_all (name : string) (fs : list attr_filter)
           (n : node) : list node :=
  filter (matches name fs) (descendants n).

End Soup.

(** ** [datetime]

    The fields of a Python [datetime]; [tzinfo] is the UTC offset of a
    fixed-offset [timezone], in microseconds, or [None] for a naive value. *)

Record datetime : Type := mk_datetime {
  year : Z; month : Z; day : Z;
  hour : Z; minute : Z; second : Z; microsecond : Z;
  tzinfo : option Z
}.

Module Datetime.

Definition us_per_second : Z := 1000000.
Definition us_per_minute : Z := 60 * us_per_second.
Definition us_per_hour : Z := 60 * us_per_minute.
Definition us_per_day : Z := 24 * us_per_hour.

Definition is_leap (y : Z) : bool :=
  (y mod 4 =? 0) && (negb (y mod 100 =? 0) || (y mod 400 =? 0)).

Definition days_in_month (y m : Z) : Z :=
  if m =? 2 then (if is_leap y then 29 else 28)
  else if (m =? 4) || (m =? 6) || (m =? 9) || (m =? 11) then 30
  else 31.

Definition between (lo x hi : Z) : bool := (lo <=? x) && (x <=? hi).

(** The range checks of the [datetime] and [timezone] constructors. *)
Definition valid (d : datetime) : bool :=
  between 1 (year d) 9999 && between 1 (month d) 12 &&
  between 1 (day d) (days_in_month (year d) (month d)) &&
  between 0 (hour d) 23 && between 0 (minute d) 59 &&
  between 0 (second d) 59 && between 0 (microsecond d) 999999 &&
  match tzinfo d with
  | None => true
  | Some off => (- us_per_day <? off) && (off <? us_per_day)
  end.

(** [datetime(...)]: [None] stands for the constructor's [ValueError]. *)
Definition new (y mo d h mi s us : Z) (tz : option Z) : option datetime :=
  let r := mk_datetime y mo d h mi s us tz in
  if valid r then Some r else None.

(** *** Printing: [datetime.isoformat()] *)

Definition digit (n : Z) : ascii := ascii_of_nat (48 + Z.to_nat n).

(** ["%02d"], ["%04d"] and ["%06d"] on numbers that fit the width. *)
Definition pad2 (n : Z) : string :=
  String (digit (n / 10)) (String (digit (n mod 10)) EmptyString).

Definition pad4 (n : Z) : string :=
  String (digit (n / 1000)) (String (digit (n / 100 mod 10))
    (pad2 (n mod 100))).

Definition pad6 (n : Z) : string :=
  String (digit (n / 100000)) (String (digit (n / 10000 mod 10))
    (pad4 (n mod 10000))).

(** [_format_offset]: the sign, then [HH:MM], with [:SS] and [.ffffff] only
    when they are not zero. *)
Definition offset_digits (a : Z) : string :=
  let hh := a / us_per_hour in
  let mm := a mod us_per_hour / us_per_minute in
  let ss := a mod us_per_minute / us_per_second in
  let us := a mod us_per_second in
  pad2 hh ++ ":" ++ pad2 mm ++
  (if (ss =? 0) && (us =? 0) then EmptyString
   else ":" ++ pad2 ss ++
        (if us =? 0 then EmptyString else "." ++ pad6 us)).

Definition format_offset (tz : option Z) : string :=
  match tz with
  | None => EmptyString
  | Some off =>
      (if off <? 0 then "-" else "+") ++ offset_digits (Z.abs off)
  end.

Definition isoformat (d : datetime) : string :=
  pad4 (year d) ++ "-" ++ pad2 (month d) ++ "-" ++ pad2 (day d) ++ "T" ++
  pad2 (hour d) ++ ":" ++ pad2 (minute d) ++ ":" ++ pad2 (second d) ++
  (if microsecond d =? 0 then EmptyString else "." ++ pad6 (microsecond d)) ++
  format_offset (tzinfo d).

(** *** Parsing: [datetime.fromisoformat(s)]

    The grammar that Python 3.8 to 3.10 document,
    [YYYY-MM-DD[*HH[:MM[:SS[.fff[fff]]]][+HH:MM[:SS[.ffffff]]]]],
    where [*] is any one character.  [None] stands for [ValueError]; the
    text of that exception is [fromisoformat_error] below.  Interpreters
    differ at the edges of this grammar: the C parser of CPython also reads a
    fraction that follows the hour or the minute, and reads an offset of less
    than one second as UTC; Python 3.11 and later read more texts (a
    fraction of any length, offsets without a colon, dates without dashes, a
    final [Z]).  What is to hold with every interpreter is stated with the
    parser as an argument. *)

Definition digit_val (c : ascii) : option Z :=
  let n := nat_of_ascii c in
  if ((48 <=? n) && (n <=? 57))%nat then Some (Z.of_nat n - 48) else None.

(** Exactly [k] decimal digits. *)
Fixpoint parse_digits (k : nat) (acc : Z) (s : string) : option (Z * string) :=
  match k with
  | O => Some (acc, s)
  | S k' =>
      match s with
      | EmptyString => None
      | String c s' =>
          match digit_val c with
          | Some v => parse_digits k' (10 * acc + v) s'
          | None => None
          end
      end
  end.

Definition is_sign (c : ascii) : bool :=
  Ascii.eqb c "+"%char || Ascii.eqb c "-"%char.

(** The fraction after the seconds: three or six digits, up to the end of
    the text or to the sign of the offset. *)
Definition parse_fraction (s : string) : option (Z * string) :=
  match parse_digits 3 0 s with
  | None => None
  | Some (ms, rest) =>
      match rest with
      | EmptyString => Some (ms * 1000, rest)
      | String c _ =>
          if is_sign c then Some (ms * 1000, rest)
          else parse_digits 3 ms rest
      end
  end.

(** [_parse_hh_mm_ss_ff]: [HH[:MM[:SS[.fff[fff]]]]]; returns the four
    components and what follows them. *)
Definition parse_hh_mm_ss_ff (s : string) : option (Z * Z * Z * Z * string) :=
  match parse_digits 2 0 s with
  | None => None
  | Some (hh, r1) =>
      match r1 with
      | String ":" r1' =>
          match parse_digits 2 0 r1' with
          | None => None
          | Some (mm, r2) =>
              match r2 with
              | String ":" r2' =>
                  match parse_digits 2 0 r2' with
                  | None => None
                  | Some (ss, r3) =>
                      match r3 with
                      | String "." r3' =>
                          match parse_fraction r3' with
                          | None => None
                          | Some (us, r4) => Some (hh, mm, ss, us, r4)
                          end
                      | _ => Some (hh, mm, ss, 0, r3)
                      end
                  end
              | _ => Some (hh, mm, 0, 0, r2)
              end
          end
      | _ => Some (hh, 0, 0, 0, r1)
      end
  end.

(** [_parse_isoformat_time]: the time of day and the offset. *)
Definition parse_isoformat_time (tstr : string)
  : option (Z * Z * Z * Z * option Z) :=
  match parse_hh_mm_ss_ff tstr with
  | None => None
  | Some (hh, mm, ss, us, rest) =>
      match rest with
      | EmptyString => Some (hh, mm, ss, us, None)
      | String c tzstr =>
          if is_sign c then
            let n := String.length tzstr in
            if ((n =? 5) || (n =? 8) || (n =? 15))%nat then
              match parse_hh_mm_ss_ff tzstr with
              | Some (th, tm, ts, tus, EmptyString) =>
                  let td := th * us_per_hour + tm * us_per_minute
                            + ts * us_per_second + tus in
                  let off := if Ascii.eqb c "-"%char then - td else td in
                  Some (hh, mm, ss, us, Some off)
              | _ => None
              end
            else None
          else None
      end
  end.

Definition fromisoformat (s : string) : option datetime :=
  match parse_digits 4 0 s with
  | Some (y, String "-" r1) =>
      match parse_digits 2 0 r1 with
      | Some (mo, String "-" r2) =>
          match parse_digits 2 0 r2 with
          | Some (d, EmptyString) => new y mo d 0 0 0 0 None
          | Some (d, String _ tstr) =>
              match parse_isoformat_time tstr with
              | Some (hh, mm, ss, us, tz) => new y mo d hh mm ss us tz
              | None => None
              end
          | None => None
          end
      | _ => None
      end
  | _ => None
  end.

(** The fields that [fromisoformat] reads, before the constructors check
    their ranges. *)
Definition parse_isoformat (s : string)
  : option (Z * Z * Z * Z * Z * Z * Z * option Z) :=
  match parse_digits 4 0 s with
  | Some (y, String "-" r1) =>
      match parse_digits 2 0 r1 with
      | Some (mo, String "-" r2) =>
          match parse_digits 2 0 r2 with
          | Some (d, EmptyString) => Some (y, mo, d, 0, 0, 0, 0, None)
          | Some (d, String _ tstr) =>
              match parse_isoformat_time tstr with
              | Some (hh, mm, ss, us, tz) => Some (y, mo, d, hh, mm, ss, us, tz)
              | None => None
              end
          | None => None
          end
      | _ => None
      end
  | _ => None
  end.

(** [str(e)] of the [ValueError] raised on a text that is not in the
    grammar: the message ends with [repr] of the text. *)
Definition invalid_isoformat (s : string) : string :=
  "Invalid isoformat string: " ++ Str.repr s.

(** [repr] of the [timedelta] of [us] microseconds: days, seconds and
    microseconds, those that are not zero. *)
Definition timedelta_repr (us : Z) : string :=
  let days := us / us_per_day in
  let seconds := us mod us_per_day / us_per_second in
  let microseconds := us mod us_per_second in
  let args :=
    ((if days =? 0 then [] else [("days=" ++ Str.of_int days)%string]) ++
     (if seconds =? 0 then []
      else [("seconds=" ++ Str.of_int seconds)%string]) ++
     (if microseconds =? 0 then []
      else [("microseconds=" ++ Str.of_int microseconds)%string]))%list in
  "datetime.timedelta(" ++
  match args with [] => "0" | _ => String.concat ", " args end ++ ")".

(** [str(e)] of the [ValueError] of the constructors, which check the
    offset first, then the date, then the time of day. *)
Definition out_of_range (d : datetime) : string :=
  if match tzinfo d with
     | Some off => negb ((- us_per_day <? off) && (off <? us_per_day))
     | None => false
     end
  then "offset must be a timedelta strictly between -timedelta(hours=24) and timedelta(hours=24), not "
       ++ timedelta_repr (match tzinfo d with Some off => off | None => 0 end)
       ++ "."
  else if negb (between 1 (year d) 9999)
  then "year " ++ Str.of_int (year d) ++ " is out of range"
  else if negb (between 1 (month d) 12) then "month must be in 1..12"
  else if negb (between 1 (day d) (days_in_month (year d) (month d)))
  then "day is out of range for month"
  else if negb (between 0 (hour d) 23) then "hour must be in 0..23"
  else if negb (between 0 (minute d) 59) then "minute must be in 0..59"
  else if negb (between 0 (second d) 59) then "second must be in 0..59"
  else "microsecond must be in 0..999999".

(** [str(e)] of the [ValueError] that [fromisoformat(s)] raises when it
    returns no date. *)
Definition fromisoformat_error (s : string) : string :=
  match parse_isoformat s with
  | Some (y, mo, d, hh, mm, ss, us, tz) =>
      out_of_range (mk_datetime y mo d hh mm ss us tz)
  | None => invalid_isoformat s
  end.

End Datetime.

(** ** The article record *)

Record NewsArticle : Type := mk_NewsArticle {
  title : string;
  content : string;
  url : string;
  source : string;
  author : option string;
  date : option datetime;
  summary : option string;
  categories : list string
}.

(** Values stored in the dictionary that [to_dict] builds. *)
Inductive value : Type :=
| VNone
| VStr (s : string)
| VList (l : list string).

Module Article.

(** [NewsArticle.__init__]: [categories or []]. *)
Definition __init__ (title content url source : string)
           (author : option string) (date : option datetime)
           (summary : option string) (categories : option (list string))
  : NewsArticle :=
  mk_NewsArticle title content url source author date summary
    (match categories with
     | Some (c :: cs) => c :: cs
     | _ => []
     end).

Definition of_option (o : option string) : value :=
  match o with Some s => VStr s | None => VNone end.

(** [NewsArticle.to_dict]: the keys in insertion order. *)
Definition to_dict (self : NewsArticle) : list (string * value) :=
  [ ("title", VStr (title self));
    ("content", VStr (content self));
    ("url", VStr (url self));
    ("source", VStr (source self));
    ("author", of_option (author self));
    ("date", match date self with
             | Some d => VStr (Datetime.isoformat d)
             | None => VNone
             end);
    ("summary", of_option (summary self));
    ("categories", VList (categories self)) ].

End Article.

(** ** Effects: clock, rate-limit stamp, log and network *)

Inductive exn : Type :=
| HTTPError (msg : string)        (* raised by [response.raise_for_status()] *)
| RequestException (msg : string) (* raised by [requests.get]: no response *)
| ValueError (msg : string)
| ParserRejectedMarkup (msg : string). (* raised by [BeautifulSoup(...)] *)

(** [str(e)] *)
Definition str (e : exn) : string :=
  match e with
  | HTTPError msg | RequestException msg | ValueError msg
  | ParserRejectedMarkup msg => msg
  end.

(** A call of [datetime.fromisoformat]: the date, or the exception raised. *)
Definition datetime_fromisoformat (s : string) : exn + datetime :=
  match Datetime.fromisoformat s with
  | Some d => inr d
  | None => inl (ValueError (Datetime.fromisoformat_error s))
  end.

(** What [requests.get] returns.  The body is given by what the parser makes
    of it: [markup_error] is [None] and [text] is the tree, or [markup_error]
    is the complaint of a parser that rejects the markup. *)
Record Response : Type := mk_Response {
  status_code : Z;
  reason : string;
  response_url : string;
  text : BeautifulSoup;
  markup_error : option string
}.

(** Everything outside the program.  The [n]-th request of a run (counting
    from 0) to [u] yields [requests_get n u] after [latency n] seconds; the
    sleep before the [n]-th request lasts [oversleep n] longer than asked;
    [random_choice n k] is the index that the [n]-th call of
    [random.choice] picks among [k] items. *)
Record World : Type := mk_World {
  requests_get : nat -> string -> exn + Response;
  latency : nat -> Q;
  oversleep : nat -> Q;
  random_choice : nat -> nat -> nat
}.

Inductive level : Type := DEBUG | INFO | ERROR.

Record State : Type := mk_State {
  clock : Q;                       (* what [time.time()] returns *)
  last_request_time : Q;           (* [self.last_request_time] *)
  user_agent : string;             (* [self.headers['User-Agent']] *)
  random_calls : nat;              (* calls of [random.choice] so far *)
  sent : list (Q * string);        (* requests issued, oldest first: start time, URL *)
  log : list (level * string)      (* records emitted, oldest first *)
}.

Inductive result (A : Type) : Type :=
| Ok (a : A)
| Raised (e : exn).
Arguments Ok {A} a.
Arguments Raised {A} e.

Definition M (A : Type) : Type := State -> result A * State.

Definition ret {A} (a : A) : M A := fun s => (Ok a, s).

Definition raise {A} (e : exn) : M A := fun s => (Raised e, s).

Definition bind {A B} (m : M A) (k : A -> M B) : M B :=
  fun s =>
    match m s with
    | (Ok a, s') => k a s'
    | (Raised e, s') => (Raised e, s')
    end.

(** [try: m except Exception as e: h e] *)
Definition try_except {A} (m : M A) (h : exn -> M A) : M A :=
  fun s =>
    match m s with
    | (Ok a, s') => (Ok a, s')
    | (Raised e, s') => h e s'
    end.

Notation "x <- m ;; k" := (bind m (fun x => k))
  (at level 61, m at next level, right associativity).
Notation "m ;; k" := (bind m (fun _ => k))
  (at level 61, right associativity).

Definition get_state : M State := fun s => (Ok s, s).

(** [time.time()] *)
Definition time_time : M Q := fun s => (Ok (clock s), s).

(** [time.sleep(d)]: the clock moves on by [d], and by what the sleep
    overshoots. *)
Definition time_sleep (w : World) (d : Q) : M unit :=
  fun s => (Ok tt, mk_State (clock s + d + oversleep w (List.length (sent s)))
                            (last_request_time s) (user_agent s)
                            (random_calls s) (sent s) (log s)).

Definition set_last_request_time (t : Q) : M unit :=
  fun s => (Ok tt, mk_State (clock s) t (user_agent s)
                            (random_calls s) (sent s) (log s)).

(** The module configures logging at level [INFO]: [logger.debug] records are
    dropped, [logger.info] and [logger.error] records are emitted. *)
Definition logger_debug : M unit := ret tt.

Definition logger_error (msg : string) : M unit :=
  fun s => (Ok tt, mk_State (clock s) (last_request_time s) (user_agent s)
                            (random_calls s) (sent s) (log s ++ [(ERROR, msg)])).

(** [BeautifulSoup(response.text, 'html.parser')]: the tree, or the
    exception of a parser that rejects the markup. *)
Definition parse_html (response : Response) : M BeautifulSoup :=
  match markup_error response with
  | Some msg => raise (ParserRejectedMarkup msg)
  | None => ret (text response)
  end.

(** ** The scraper classes *)

(** What [__init__] stores on [self] and never changes. *)
Record Config : Type := mk_Config {
  base_url : string;
  domain : string;
  rate_limit : Q;
  user_agents : list string;
  proxies : option (list (string * string))
}.

(** The methods that subclasses override, with the configuration: [self]. *)
Record Scraper : Type := mk_Scraper {
  config : Config;
  _extract_title : BeautifulSoup -> string;
  _extract_content : BeautifulSoup -> string;
  _extract_author : BeautifulSoup -> option string;
  _extract_date : BeautifulSoup -> M (option datetime);
  _extract_summary : BeautifulSoup -> option string;
  _extract_categories : BeautifulSoup -> list string;
  _get_article_urls : Z -> M (list string)
}.

(** [len(l)] *)
Definition len {A} (l : list A) : Z := Z.of_nat (List.length l).

(** [str(n)] for an integer *)
Definition str_int (n : Z) : string := NilZero.string_of_int (Z.to_int n).

Module NewsScraper.

Definition default_user_agents : list string :=
  [ "Mozilla/5.0 (Windows NT 10.0; Win64; x64) AppleWebKit/537.36 (KHTML, like Gecko) Chrome/91.0.4472.124 Safari/537.36";
    "Mozilla/5.0 (Macintosh; Intel Mac OS X 10_15_7) AppleWebKit/605.1.15 (KHTML, like Gecko) Version/14.1.1 Safari/605.1.15";
    "Mozilla/5.0 (X11; Linux x86_64) AppleWebKit/537.36 (KHTML, like Gecko) Chrome/92.0.4515.107 Safari/537.36";
    "Mozilla/5.0 (Windows NT 10.0; Win64; x64; rv:90.0) Gecko/20100101 Firefox/90.0" ].

(** [urlparse(u).netloc] for a URL of the form [scheme://authority...]:
    what lies between ["://"] and the next [/], [?] or [#]. *)
Fixpoint until_delim (s : string) : string :=
  match s with
  | EmptyString => EmptyString
  | String c s' =>
      if Ascii.eqb c "/"%char || Ascii.eqb c "?"%char || Ascii.eqb c "#"%char
      then EmptyString
      else String c (until_delim s')
  end.

Fixpoint netloc (u : string) : string :=
  match u with
  | EmptyString => EmptyString
  | String c u' =>
      if Str.startswith u "://"
      then until_delim (String.substring 3 (String.length u) u)
      else netloc u'
  end.

(** [random.choice(self.user_agents)] *)
Definition random_user_agent (w : World) (cfg : Config) : M string :=
  fun s =>
    let k := List.length (user_agents cfg) in
    let i := (random_choice w (random_calls s) k mod k)%nat in
    (Ok (nth i (user_agents cfg) EmptyString),
     mk_State (clock s) (last_request_time s) (user_agent s)
              (S (random_calls s)) (sent s) (log s)).

(** [NewsScraper.__init__]: the configuration kept on [self]; [None] for an
    argument left to its default. *)
Definition __init__ (base_url : string) (user_agents : option (list string))
           (proxies : option (list (string * string))) (rate_limit : option Q)
  : Config :=
  mk_Config base_url (netloc base_url)
    (match rate_limit with Some r => r | None => 1 end)
    (match user_agents with
     | Some (u :: us) => u :: us
     | _ => default_user_agents
     end)
    proxies.

(** The state right after [__init__], on a clock that reads [t0]:
    [last_request_time = 0], a first user agent drawn, one [INFO] record. *)
Definition initial_state (w : World) (cfg : Config) (t0 : Q) : State :=
  let k := List.length (user_agents cfg) in
  mk_State t0 0
    (nth (random_choice w 0 k mod k)%nat (user_agents cfg) EmptyString)
    1 [] [(INFO, ("Initialized scraper for " ++ domain cfg)%string)].

Definition _rotate_user_agent (w : World) (cfg : Config) : M unit :=
  ua <- random_user_agent w cfg ;;
  fun s => (Ok tt, mk_State (clock s) (last_request_time s) ua
                            (random_calls s) (sent s) (log s)).

Definition _respect_rate_limit (w : World) (cfg : Config) : M unit :=
  current_time <- time_time ;;
  s <- get_state ;;
  let time_since_last_request := (current_time - last_request_time s)%Q in
  (if negb (Qle_bool (rate_limit cfg) time_since_last_request)
   then
     let sleep_time := (rate_limit cfg - time_since_last_request)%Q in
     logger_debug ;;
     time_sleep w sleep_time
   else ret tt) ;;
  now <- time_time ;;
  set_last_request_time now.

(** [requests.get(url, headers=self.headers, proxies=self.proxies)]: the
    request starts now, and its outcome arrives [latency] later. *)
Definition requests_get_ (w : World) (url : string) : M Response :=
  fun s =>
    let n := List.length (sent s) in
    let s' := mk_State (clock s + latency w n) (last_request_time s)
                       (user_agent s) (random_calls s)
                       (sent s ++ [(clock s, url)]) (log s) in
    match requests_get w n url with
    | inl e => (Raised e, s')
    | inr r => (Ok r, s')
    end.

(** [response.raise_for_status()]: an [HTTPError] for the statuses
    400 to 599 and for no other. *)
Definition http_error_msg (r : Response) : option string :=
  let c := status_code r in
  if (400 <=? c) && (c <? 500) then
    Some (str_int c ++ " Client Error: " ++ reason r
          ++ " for url: " ++ response_url r)%string
  else if (500 <=? c) && (c <? 600) then
    Some (str_int c ++ " Server Error: " ++ reason r
          ++ " for url: " ++ response_url r)%string
  else None.

Definition raise_for_status (r : Response) : M unit :=
  match http_error_msg r with
  | Some msg => raise (HTTPError msg)
  | None => ret tt
  end.

Definition _make_request (w : World) (cfg : Config) (url : string)
  : M Response :=
  _respect_rate_limit w cfg ;;
  _rotate_user_agent w cfg ;;
  logger_debug ;;
  response <- requests_get_ w url ;;
  raise_for_status response ;;
  ret response.

Definition fetch_article (w : World) (self : Scraper) (url : string)
  : M (option NewsArticle) :=
  try_except
    (response <- _make_request w (config self) url ;;
     soup <- parse_html response ;;
     let title := _extract_title self soup in
     let content := _extract_content self soup in
     let author := _extract_author self soup in
     date <- _extract_date self soup ;;
     let summary := _extract_summary self soup in
     let categories := _extract_categories self soup in
     ret (Some (Article.__init__ title content url (domain (config self))
                  author date summary (Some categories))))
    (fun e =>
       logger_error ("Error fetching article " ++ url ++ ": " ++ str e) ;;
       ret None).

(** The [for url in article_urls] loop of [fetch_latest_articles]. *)
Fixpoint fetch_loop (w : World) (self : Scraper) (limit : Z)
         (article_urls : list string) (articles : list NewsArticle)
  : M (list NewsArticle) :=
  match article_urls with
  | [] => ret articles
  | url :: rest =>
      article <- fetch_article w self url ;;
      match article with
      | Some a =>
          let articles := articles ++ [a] in
          if len articles >=? limit then ret articles
          else fetch_loop w self limit rest articles
      | None => fetch_loop w self limit rest articles
      end
  end.

Definition fetch_latest_articles (w : World) (self : Scraper) (limit : Z)
  : M (list NewsArticle) :=
  try_except
    (article_urls <- _get_article_urls self limit ;;
     fetch_loop w self limit article_urls [])
    (fun e =>
       logger_error ("Error fetching latest articles: " ++ str e) ;;
       ret []).

Definition _extract_title (soup : BeautifulSoup) : string :=
  match Soup.find "h1" [] soup with
  | Some title_tag => Str.strip (Soup.text title_tag)
  | None => "Unknown Title"
  end.

Definition _extract_content (soup : BeautifulSoup) : string :=
  let paragraphs := Soup.find_all "p" [] soup in
  Str.join " " (map (fun p => Str.strip (Soup.text p)) paragraphs).

Definition _extract_author (soup : BeautifulSoup) : option string := None.

Definition _extract_date (soup : BeautifulSoup) : M (option datetime) :=
  ret None.

Definition _extract_summary (soup : BeautifulSoup) : option string := None.

Definition _extract_categories (soup : BeautifulSoup) : list string := [].

Definition _get_article_urls (limit : Z) : M (list string) := ret [].

(** [NewsScraper(base_url, user_agents, proxies, rate_limit)] *)
Definition self (base_url : string) (user_agents : option (list string))
           (proxies : option (list (string * string))) (rate_limit : option Q)
  : Scraper :=
  mk_Scraper (__init__ base_url user_agents proxies rate_limit)
    _extract_title _extract_content _extract_author _extract_date
    _extract_summary _extract_categories _get_article_urls.

End NewsScraper.

Module NYTimesScraper.

Definition config : Config :=
  NewsScraper.__init__ "https://www.nytimes.com" None None None.

Definition _extract_title (soup : BeautifulSoup) : string :=
  let title_tag := Soup.find "h1" [AttrIs "data-testid" "headline"] soup in
  let title_tag :=
    match title_tag with
    | None => Soup.find "h1" [] soup
    | Some t => Some t
    end in
  match title_tag with
  | Some t => Str.strip (Soup.text t)
  | None => "Unknown Title"
  end.

Definition _extract_content (soup : BeautifulSoup) : string :=
  let article_section := Soup.find "section" [AttrIs "name" "articleBody"] soup in
  let paragraphs :=
    match article_section with
    | Some sec => Soup.tag_find_all "p" [] sec
    | None => Soup.find_all "p" [AttrIs "class" "css-axufdj"] soup
    end in
  Str.join " " (map (fun p => Str.strip (Soup.text p)) paragraphs).

Definition _extract_author (soup : BeautifulSoup) : option string :=
  let author_tag := Soup.find "span" [AttrIs "itemprop" "name"] soup in
  let author_tag :=
    match author_tag with
    | None => Soup.find "span" [AttrIs "class" "byline-author"] soup
    | Some t => Some t
    end in
  option_map (fun t => Str.strip (Soup.text t)) author_tag.

(** [_extract_date], with the [datetime.fromisoformat] of the interpreter
    that runs the module as an argument. *)
Definition _extract_date_with (fromisoformat : string -> exn + datetime)
           (soup : BeautifulSoup) : M (option datetime) :=
  try_except
    (let date_tag := Soup.find "time" [] soup in
     match date_tag with
     | Some tag =>
         match Soup.tag_get "datetime" tag with
         | Some (String c v) =>
             match fromisoformat (Str.replace "Z" "+00:00" (String c v)) with
             | inr d => ret (Some d)
             | inl e => raise e
             end
         | _ => ret None
         end
     | None => ret None
     end)
    (fun e => logger_error ("Error parsing date: " ++ str e) ;; ret None).

Definition _extract_date (soup : BeautifulSoup) : M (option datetime) :=
  _extract_date_with datetime_fromisoformat soup.

Definition _extract_summary (soup : BeautifulSoup) : option string :=
  let summary_tag := Soup.find "p" [AttrIs "id" "article-summary"] soup in
  let summary_tag :=
    match summary_tag with
    | None => Soup.find "p" [AttrIs "class" "css-w6ymp8"] soup
    | Some t => Some t
    end in
  option_map (fun t => Str.strip (Soup.text t)) summary_tag.

(** The non-empty [content] attribute of a [meta] tag, if any. *)
Definition content_of (tag : node) : list string :=
  match Soup.tag_get "content" tag with
  | Some (String c v) => [String c v]
  | _ => []
  end.

Definition _extract_categories (soup : BeautifulSoup) : list string :=
  let section_tag := Soup.find "meta" [AttrIs "property" "article:section"] soup in
  let categories :=
    match section_tag with
    | Some t => content_of t
    | None => []
    end in
  let keyword_tags := Soup.find_all "meta" [AttrIs "property" "article:tag"] soup in
  categories ++ flat_map content_of keyword_tags.

(** [link['href']] on a tag that [find_all('a', href=True)] returned. *)
Definition href_of (link : node) : string :=
  match Soup.tag_get "href" link with
  | Some h => h
  | None => EmptyString
  end.

(** The [for link in soup.find_all('a', href=True)] loop; reaching [limit]
    is tested after each append, and ends the loop. *)
Fixpoint collect (base_url : string) (limit : Z) (links : list node)
         (article_links : list string) : list string :=
  match links with
  | [] => article_links
  | link :: rest =>
      let href := href_of link in
      if Str.startswith href "/" then
        if Str.contains "/2023/" href || Str.contains "/2024/" href then
          let full_url := (base_url ++ href)%string in
          if negb (Str.mem full_url article_links) then
            let article_links := article_links ++ [full_url] in
            if len article_links >=? limit then article_links
            else collect base_url limit rest article_links
          else collect base_url limit rest article_links
        else collect base_url limit rest article_links
      else collect base_url limit rest article_links
  end.

(** URL discovery on a parsed front page. *)
Definition discover (soup : BeautifulSoup) (limit : Z) : list string :=
  collect (base_url config) limit
          (Soup.find_all "a" [AttrPresent "href"] soup) [].

Definition _get_article_urls (w : World) (limit : Z) : M (list string) :=
  try_except
    (response <- NewsScraper._make_request w config (base_url config) ;;
     soup <- parse_html response ;;
     ret (discover soup limit))
    (fun e =>
       logger_error ("Error getting article URLs: " ++ str e) ;;
       ret []).

(** [NYTimesScraper()] *)
Definition self (w : World) : Scraper :=
  mk_Scraper config
    _extract_title _extract_content _extract_author _extract_date
    _extract_summary _extract_categories (_get_article_urls w).

(** [NYTimesScraper()] on an interpreter whose [datetime.fromisoformat] is
    [fromisoformat]. *)
Definition self_with (fromisoformat : string -> exn + datetime) (w : World)
  : Scraper :=
  mk_Scraper config
    _extract_title _extract_content _extract_author
    (_extract_date_with fromisoformat)
    _extract_summary _extract_categories (_get_article_urls w).

End NYTimesScraper.

Module BBCScraper.

Definition config : Config :=
  NewsScraper.__init__ "https://www.bbc.com/news" None None None.

Definition _extract_title (soup : BeautifulSoup) : string :=
  match Soup.find "h1" [AttrIs "id" "main-heading"] soup with
  | Some title_tag => Str.strip (Soup.text title_tag)
  | None => "Unknown Title"
  end.

Definition _extract_content (soup : BeautifulSoup) : string :=
  match Soup.find "article" [] soup with
  | Some article_body =>
      let paragraphs := Soup.tag_find_all "p" [] article_body in
      Str.join " " (map (fun p => Str.strip (Soup.text p)) paragraphs)
  | None => EmptyString
  end.

Definition _extract_author (soup : BeautifulSoup) : option string :=
  option_map (fun t => Str.strip (Soup.text t))
    (Soup.find "div" [AttrIs "class" "ssrcss-68pt20-Text-TextContributorName"] soup).

(** [_extract_date], with the [datetime.fromisoformat] of the interpreter
    that runs the module as an argument. *)
Definition _extract_date_with (fromisoformat : string -> exn + datetime)
           (soup : BeautifulSoup) : M (option datetime) :=
  try_except
    (let time_tag := Soup.find "time" [] soup in
     match time_tag with
     | Some tag =>
         match Soup.tag_get "datetime" tag with
         | Some (String c v) =>
             match fromisoformat (Str.replace "Z" "+00:00" (String c v)) with
             | inr d => ret (Some d)
             | inl e => raise e
             end
         | _ => ret None
         end
     | None => ret None
     end)
    (fun e => logger_error ("Error parsing date: " ++ str e) ;; ret None).

Definition _extract_date (soup : BeautifulSoup) : M (option datetime) :=
  _extract_date_with datetime_fromisoformat soup.

Definition href_of (link : node) : string := NYTimesScraper.href_of link.

(** The link loop: the membership test is made on [href] as found in the
    page, before the host is put in front of it. *)
Fixpoint collect (limit : Z) (links : list node)
         (article_links : list string) : list string :=
  match links with
  | [] => article_links
  | link :: rest =>
      let href := href_of link in
      if Str.startswith href "/news/" && Str.contains "-" href then
        if negb (Str.mem href article_links) then
          let href :=
            if negb (Str.startswith href "http")
            then ("https://www.bbc.com" ++ href)%string
            else href in
          let article_links := article_links ++ [href] in
          if len article_links >=? limit then article_links
          else collect limit rest article_links
        else collect limit rest article_links
      else collect limit rest article_links
  end.

Definition discover (soup : BeautifulSoup) (limit : Z) : list string :=
  collect limit (Soup.find_all "a" [AttrPresent "href"] soup) [].

Definition _get_article_urls (w : World) (limit : Z) : M (list string) :=
  try_except
    (response <- NewsScraper._make_request w config (base_url config) ;;
     soup <- parse_html response ;;
     ret (discover soup limit))
    (fun e =>
       logger_error ("Error getting article URLs: " ++ str e) ;;
       ret []).

(** [BBCScraper()]: the methods it does not override are inherited. *)
Definition self (w : World) : Scraper :=
  mk_Scraper config
    _extract_title _extract_content _extract_author _extract_date
    NewsScraper._extract_summary NewsScraper._extract_categories
    (_get_article_urls w).

(** [BBCScraper()] on an interpreter whose [datetime.fromisoformat] is
    [fromisoformat]. *)
Definition self_with (fromisoformat : string -> exn + datetime) (w : World)
  : Scraper :=
  mk_Scraper config
    _extract_title _extract_content _extract_author
    (_extract_date_with fromisoformat)
    NewsScraper._extract_summary NewsScraper._extract_categories
    (_get_article_urls w).

End BBCScraper.

(** * Properties *)

(** ** Strings and lists *)

Lemma mem_In (x : string) (l : list string) :
  Str.mem x l = true <-> In x l.
Proof.
  unfold Str.mem. rewrite existsb_exists. split.
  - intros [y [Hy Heq]]. apply String.eqb_eq in Heq. subst. exact Hy.
  - intros H. exists x. split; [exact H | apply String.eqb_refl].
Qed.

Lemma mem_false (x : string) (l : list string) :
  Str.mem x l = false <-> ~ In x l.
Proof.
  rewrite <- mem_In. destruct (Str.mem x l); split; intros; congruence.
Qed.

Lemma startswith_cons (a b : ascii) (p s : string) :
  Str.startswith (String b s) (String a p) = Ascii.eqb b a && Str.startswith s p.
Proof. reflexivity. Qed.

Lemma startswith_append (p s : string) : Str.startswith (p ++ s) p = true.
Proof.
  induction p as [|c p IH].
  - reflexivity.
  - simpl. now rewrite startswith_cons, Ascii.eqb_refl.
Qed.

Lemma append_inj_l (p a b : string) : (p ++ a = p ++ b)%string -> a = b.
Proof.
  induction p as [|c p IH]; simpl; intros H.
  - exact H.
  - inversion H. auto.
Qed.

Lemma len_app {A} (l : list A) (x : A) : len (l ++ [x]) = len l + 1.
Proof. unfold len. rewrite length_app. simpl. lia. Qed.

Lemma len_nonneg {A} (l : list A) : 0 <= len l.
Proof. unfold len. lia. Qed.

(** The room left in a list bounded by [limit]: the loops test the bound only
    after an append, so one more item always fits. *)
Definition room {A} (limit : Z) (collected : list A) : nat :=
  Z.to_nat (Z.max 1 (limit - len collected)).

Lemma room_last {A} (limit : Z) (acc : list A) (x : A) :
  (len (acc ++ [x]) >=? limit) = true -> room limit acc = 1%nat.
Proof.
  unfold room. rewrite len_app. intros H. apply Z.geb_le in H.
  replace (Z.max 1 (limit - len acc)) with 1 by lia. reflexivity.
Qed.

Lemma room_more {A} (limit : Z) (acc : list A) (x : A) :
  (len (acc ++ [x]) >=? limit) = false ->
  room limit acc = S (room limit (acc ++ [x])).
Proof.
  unfold room. rewrite len_app. intros H.
  assert (Hlt : len acc + 1 < limit).
  { destruct (Z.geb_spec (len acc + 1) limit); [discriminate | lia]. }
  rewrite <- Z2Nat.inj_succ by lia. f_equal. lia.
Qed.

(** First occurrences only, given what has been [seen] already. *)
Fixpoint uniq_from (seen l : list string) : list string :=
  match l with
  | [] => []
  | x :: r =>
      if Str.mem x seen then uniq_from seen r
      else x :: uniq_from (seen ++ [x]) r
  end.

Lemma uniq_from_In (l seen : list string) (x : string) :
  In x (uniq_from seen l) -> In x l /\ ~ In x seen.
Proof.
  revert seen. induction l as [|y r IH]; simpl; intros seen H.
  - contradiction.
  - destruct (Str.mem y seen) eqn:E.
    + apply IH in H. tauto.
    + destruct H as [-> | H].
      * split; [now left | now apply mem_false].
      * apply IH in H. destruct H as [H1 H2]. split; [now right |].
        intros Hs. apply H2. apply in_or_app. now left.
Qed.

Lemma uniq_from_NoDup (l seen : list string) : NoDup (uniq_from seen l).
Proof.
  revert seen. induction l as [|y r IH]; simpl; intros seen.
  - constructor.
  - destruct (Str.mem y seen); [apply IH |].
    constructor; [| apply IH].
    intros H. apply uniq_from_In in H. destruct H as [_ H].
    apply H. apply in_or_app. right. now left.
Qed.

Lemma uniq_from_id (l seen : list string) :
  NoDup l -> (forall x, In x l -> ~ In x seen) -> uniq_from seen l = l.
Proof.
  revert seen. induction l as [|y r IH]; simpl; intros seen Hnd Hs.
  - reflexivity.
  - inversion Hnd as [|? ? Hy Hr]; subst.
    assert (E : Str.mem y seen = false) by (apply mem_false; apply Hs; now left).
    rewrite E. f_equal. apply IH; [exact Hr |].
    intros x Hx Hin. apply in_app_or in Hin. destruct Hin as [Hin | [-> | []]].
    + apply (Hs x); [now right | exact Hin].
    + contradiction.
Qed.

Lemma In_firstn {A} (n : nat) (l : list A) (x : A) :
  In x (firstn n l) -> In x l.
Proof.
  revert n. induction l as [|y r IH]; intros [|n]; simpl; try tauto.
  intros [H | H]; [now left | right; eapply IH; eauto].
Qed.

Lemma NoDup_firstn {A} (n : nat) (l : list A) : NoDup l -> NoDup (firstn n l).
Proof.
  revert n. induction l as [|x r IH]; intros [|n] H; simpl; try constructor.
  - inversion H; subst. intros Hin. apply In_firstn in Hin. contradiction.
  - inversion H; subst. now apply IH.
Qed.

(** ** URL discovery *)

Module NYTimesDiscovery.
Import NYTimesScraper.

(** The test that makes a link an article link. *)
Definition qualifies (href : string) : bool :=
  Str.startswith href "/" &&
  (Str.contains "/2023/" href || Str.contains "/2024/" href).

(** The absolute URLs of the qualifying links, in document order. *)
Definition candidates (base : string) (links : list node) : list string :=
  map (fun link => (base ++ href_of link)%string)
      (filter (fun link => qualifies (href_of link)) links).

Lemma nytimes_collect_spec (base : string) (limit : Z) (links : list node) :
  forall acc,
    collect base limit links acc =
    acc ++ firstn (room limit acc) (uniq_from acc (candidates base links)).
Proof.
  induction links as [|link rest IH]; intros acc.
  - simpl. rewrite firstn_nil, app_nil_r. reflexivity.
  - unfold candidates. simpl. unfold qualifies.
    destruct (Str.startswith (href_of link) "/") eqn:E1; simpl;
      [| apply IH].
    destruct (Str.contains "/2023/" (href_of link)
              || Str.contains "/2024/" (href_of link)) eqn:E2; simpl;
      [| apply IH].
    destruct (Str.mem (base ++ href_of link) acc) eqn:E3; simpl;
      [apply IH |].
    destruct (len (acc ++ [(base ++ href_of link)%string]) >=? limit) eqn:E4.
    + rewrite (room_last _ _ _ E4). simpl. reflexivity.
    + rewrite (room_more _ _ _ E4). simpl.
      rewrite IH. rewrite <- app_assoc. reflexivity.
Qed.

(** Discovery returns the first occurrences of the candidates, cut after
    [limit] of them, and after one of them when [limit] is below 1. *)
Lemma nytimes_discover_spec (soup : BeautifulSoup) (limit : Z) :
  discover soup limit =
  firstn (Z.to_nat (Z.max 1 limit))
         (uniq_from [] (candidates (base_url config)
                          (Soup.find_all "a" [AttrPresent "href"] soup))).
Proof.
  unfold discover. rewrite nytimes_collect_spec. simpl.
  unfold room. simpl. now rewrite Z.sub_0_r.
Qed.

Lemma nytimes_discover_NoDup (soup : BeautifulSoup) (limit : Z) :
  NoDup (discover soup limit).
Proof.
  rewrite nytimes_discover_spec. apply NoDup_firstn. apply uniq_from_NoDup.
Qed.

Lemma nytimes_discover_length (soup : BeautifulSoup) (limit : Z) :
  1 <= limit -> len (discover soup limit) <= limit.
Proof.
  intros H. rewrite nytimes_discover_spec. unfold len.
  pose proof (firstn_le_length (Z.to_nat (Z.max 1 limit))
    (uniq_from [] (candidates (base_url config)
                     (Soup.find_all "a" [AttrPresent "href"] soup)))).
  lia.
Qed.

End NYTimesDiscovery.

Module BBCDiscovery.
Import BBCScraper.

Definition qualifies (href : string) : bool :=
  Str.startswith href "/news/" && Str.contains "-" href.

Definition candidates (links : list node) : list string :=
  map (fun link => ("https://www.bbc.com" ++ href_of link)%string)
      (filter (fun link => qualifies (href_of link)) links).

Lemma news_not_http (href : string) :
  Str.startswith href "/news/" = true -> Str.startswith href "http" = false.
Proof.
  destruct href as [|c h]; [discriminate |].
  rewrite !startswith_cons.
  destruct (Ascii.eqb c "/") eqn:E; [| discriminate].
  apply Ascii.eqb_eq in E. subst c. reflexivity.
Qed.

(** Nothing collected so far can be equal to an [href] of the page that
    passes the test: the list holds absolute URLs only. *)
Definition absolute_only (article_links : list string) : Prop :=
  Forall (fun u => Str.startswith u "/news/" = false) article_links.

Lemma absolute_only_mem (href : string) (acc : list string) :
  absolute_only acc -> Str.startswith href "/news/" = true ->
  Str.mem href acc = false.
Proof.
  intros Ha Hh. apply mem_false. intros Hin.
  unfold absolute_only in Ha. rewrite Forall_forall in Ha.
  apply Ha in Hin. congruence.
Qed.

Lemma bbc_collect_spec (limit : Z) (links : list node) :
  forall acc,
    absolute_only acc ->
    collect limit links acc =
    acc ++ firstn (room limit acc) (candidates links).
Proof.
  induction links as [|link rest IH]; intros acc Hacc.
  - simpl. rewrite firstn_nil, app_nil_r. reflexivity.
  - unfold candidates. simpl. unfold qualifies.
    destruct (Str.startswith (href_of link) "/news/") eqn:E1; simpl;
      [| now apply IH].
    destruct (Str.contains "-" (href_of link)) eqn:E2; simpl;
      [| now apply IH].
    rewrite (absolute_only_mem _ _ Hacc E1), (news_not_http _ E1). simpl.
    set (u := String "h" _).
    assert (Hacc' : absolute_only (acc ++ [u])).
    { apply Forall_app. split; [exact Hacc |]. constructor; [reflexivity | constructor]. }
    destruct (len (acc ++ [u]) >=? limit) eqn:E4.
    + rewrite (room_last _ _ _ E4). reflexivity.
    + rewrite (room_more _ _ _ E4). simpl.
      rewrite (IH _ Hacc'). rewrite <- app_assoc. reflexivity.
Qed.

(** No first-occurrence filter here: every qualifying link is taken. *)
Lemma bbc_discover_spec (soup : BeautifulSoup) (limit : Z) :
  discover soup limit =
  firstn (Z.to_nat (Z.max 1 limit))
         (candidates (Soup.find_all "a" [AttrPresent "href"] soup)).
Proof.
  unfold discover. rewrite bbc_collect_spec by constructor. simpl.
  unfold room. simpl. now rewrite Z.sub_0_r.
Qed.

Lemma bbc_discover_length (soup : BeautifulSoup) (limit : Z) :
  1 <= limit -> len (discover soup limit) <= limit.
Proof.
  intros H. rewrite bbc_discover_spec. unfold len.
  pose proof (firstn_le_length (Z.to_nat (Z.max 1 limit))
    (candidates (Soup.find_all "a" [AttrPresent "href"] soup))).
  lia.
Qed.

End BBCDiscovery.

(** ** Running a request *)

Section Running.
Variable w : World.

(** What [_make_request] hands back for the [n]-th request of the run: the
    exception it raises, or the response. *)
Definition outcome (n : nat) (url : string) : exn + Response :=
  match requests_get w n url with
  | inl e => inl e
  | inr r =>
      match NewsScraper.http_error_msg r with
      | Some msg => inl (HTTPError msg)
      | None => inr r
      end
  end.

(** What the [try] block holds once the page is requested and parsed: the
    response whose body parsed, or the exception raised on the way. *)
Definition fetched (n : nat) (url : string) : exn + Response :=
  match outcome n url with
  | inl e => inl e
  | inr r =>
      match markup_error r with
      | Some msg => inl (ParserRejectedMarkup msg)
      | None => inr r
      end
  end.

Lemma fetched_failed (n : nat) (url : string) (e : exn) :
  outcome n url = inl e -> fetched n url = inl e.
Proof. intros H. unfold fetched. now rewrite H. Qed.

Lemma fetched_served (n : nat) (url : string) (r : Response) :
  outcome n url = inr r -> markup_error r = None -> fetched n url = inr r.
Proof. intros H Hm. unfold fetched. now rewrite H, Hm. Qed.

(** The time at which the request leaves: now, or when the wait is over. *)
Definition start_time (cfg : Config) (s : State) : Q :=
  let since := (clock s - last_request_time s)%Q in
  if negb (Qle_bool (rate_limit cfg) since)
  then (clock s + (rate_limit cfg - since)
        + oversleep w (List.length (sent s)))%Q
  else clock s.

(** The state that [_make_request] leaves behind. *)
Definition requested (cfg : Config) (url : string) (s : State) : State :=
  let k := List.length (user_agents cfg) in
  mk_State (start_time cfg s + latency w (List.length (sent s)))
           (start_time cfg s)
           (nth (random_choice w (random_calls s) k mod k)%nat
                (user_agents cfg) EmptyString)
           (S (random_calls s))
           (sent s ++ [(start_time cfg s, url)])
           (log s).

Definition logged (msg : string) (s : State) : State :=
  mk_State (clock s) (last_request_time s) (user_agent s)
           (random_calls s) (sent s) (log s ++ [(ERROR, msg)]).

Lemma make_request_run (cfg : Config) (url : string) (s : State) :
  NewsScraper._make_request w cfg url s =
  (match outcome (List.length (sent s)) url with
   | inl e => Raised e
   | inr r => Ok r
   end, requested cfg url s).
Proof.
  unfold NewsScraper._make_request, NewsScraper._respect_rate_limit,
    NewsScraper._rotate_user_agent, NewsScraper.random_user_agent,
    NewsScraper.requests_get_, NewsScraper.raise_for_status,
    outcome, requested, start_time, bind, time_time, get_state,
    time_sleep, set_last_request_time, logger_debug, ret, raise.
  simpl.
  destruct (negb (Qle_bool (rate_limit cfg) (clock s - last_request_time s)));
    simpl;
    destruct (requests_get w (List.length (sent s)) url) as [e | r]; simpl;
    try reflexivity;
    destruct (NewsScraper.http_error_msg r); reflexivity.
Qed.

(** [fetch_article] never raises: whatever is raised inside becomes [None]
    and one [ERROR] record. *)
Lemma fetch_article_run (self : Scraper) (url : string) (s : State) :
  NewsScraper.fetch_article w self url s =
  match fetched (List.length (sent s)) url with
  | inl e =>
      (Ok None,
       logged ("Error fetching article " ++ url ++ ": " ++ str e)
              (requested (config self) url s))
  | inr r =>
      match _extract_date self (text r) (requested (config self) url s) with
      | (Ok d, s') =>
          (Ok (Some (Article.__init__
                       (_extract_title self (text r))
                       (_extract_content self (text r))
                       url (domain (config self))
                       (_extract_author self (text r)) d
                       (_extract_summary self (text r))
                       (Some (_extract_categories self (text r))))), s')
      | (Raised e, s') =>
          (Ok None,
           logged ("Error fetching article " ++ url ++ ": " ++ str e) s')
      end
  end.
Proof.
  unfold NewsScraper.fetch_article, try_except, bind.
  rewrite make_request_run. unfold fetched, parse_html.
  destruct (outcome (List.length (sent s)) url) as [e | r]; [reflexivity |].
  destruct (markup_error r) as [msg |]; [reflexivity |].
  unfold ret at 1.
  destruct (_extract_date self (text r) (requested (config self) url s))
    as [[d | e] s']; reflexivity.
Qed.

Lemma fetch_article_total (self : Scraper) (url : string) (s : State) :
  exists r s', NewsScraper.fetch_article w self url s = (Ok r, s').
Proof.
  rewrite fetch_article_run.
  destruct (fetched (List.length (sent s)) url) as [e | r]; [eauto |].
  destruct (_extract_date self (text r) (requested (config self) url s))
    as [[d | e] s']; eauto.
Qed.

Lemma fetch_loop_total (self : Scraper) (limit : Z) (urls : list string) :
  forall acc s,
  exists arts s', NewsScraper.fetch_loop w self limit urls acc s = (Ok arts, s').
Proof.
  induction urls as [|u rest IH]; intros acc s; simpl.
  - unfold ret. eauto.
  - unfold bind.
    destruct (fetch_article_total self u s) as [r [s1 E]]. rewrite E.
    destruct r as [a |]; [| apply IH].
    destruct (len (acc ++ [a]) >=? limit); [unfold ret; eauto | apply IH].
Qed.

(** [fetch_latest_articles] never raises either, whichever [self]. *)
Lemma fetch_latest_total (self : Scraper) (limit : Z) (s : State) :
  exists arts s',
    NewsScraper.fetch_latest_articles w self limit s = (Ok arts, s').
Proof.
  unfold NewsScraper.fetch_latest_articles, try_except, bind.
  destruct (_get_article_urls self limit s) as [[urls | e] s1].
  - destruct (fetch_loop_total self limit urls [] s1) as [arts [s2 E]].
    rewrite E. eauto.
  - unfold logger_error, ret. eauto.
Qed.

(** The front-page request of the two site scrapers. *)
Lemma nytimes_get_article_urls_run (limit : Z) (s : State) :
  NYTimesScraper._get_article_urls w limit s =
  match fetched (List.length (sent s)) (base_url NYTimesScraper.config) with
  | inl e =>
      (Ok [], logged ("Error getting article URLs: " ++ str e)
                     (requested NYTimesScraper.config
                                (base_url NYTimesScraper.config) s))
  | inr r =>
      (Ok (NYTimesScraper.discover (text r) limit),
       requested NYTimesScraper.config (base_url NYTimesScraper.config) s)
  end.
Proof.
  unfold NYTimesScraper._get_article_urls, try_except, bind.
  rewrite make_request_run. unfold fetched, parse_html.
  destruct (outcome (List.length (sent s)) (base_url NYTimesScraper.config))
    as [e | r]; [reflexivity |].
  destruct (markup_error r); reflexivity.
Qed.

Lemma bbc_get_article_urls_run (limit : Z) (s : State) :
  BBCScraper._get_article_urls w limit s =
  match fetched (List.length (sent s)) (base_url BBCScraper.config) with
  | inl e =>
      (Ok [], logged ("Error getting article URLs: " ++ str e)
                     (requested BBCScraper.config
                                (base_url BBCScraper.config) s))
  | inr r =>
      (Ok (BBCScraper.discover (text r) limit),
       requested BBCScraper.config (base_url BBCScraper.config) s)
  end.
Proof.
  unfold BBCScraper._get_article_urls, try_except, bind.
  rewrite make_request_run. unfold fetched, parse_html.
  destruct (outcome (List.length (sent s)) (base_url BBCScraper.config))
    as [e | r]; [reflexivity |].
  destruct (markup_error r); reflexivity.
Qed.

(** The articles among a list of results. *)
Definition somes {A} (l : list (option A)) : list A :=
  flat_map (fun o => match o with Some a => [a] | None => [] end) l.

(** What [fetch_article] returns for each URL in turn, each call starting
    in the state the previous one left. *)
Fixpoint outcomes (self : Scraper) (urls : list string) (s : State)
  : list (option NewsArticle) :=
  match urls with
  | [] => []
  | u :: rest =>
      match NewsScraper.fetch_article w self u s with
      | (Ok r, s') => r :: outcomes self rest s'
      | (Raised _, _) => []
      end
  end.

(** The loop keeps the articles of the successful fetches, in order, and
    stops at the one that fills the list. *)
Lemma fetch_loop_spec (self : Scraper) (limit : Z) (urls : list string) :
  forall acc s,
  exists s',
    NewsScraper.fetch_loop w self limit urls acc s =
    (Ok (acc ++ firstn (room limit acc) (somes (outcomes self urls s))), s').
Proof.
  induction urls as [|u rest IH]; intros acc s; simpl.
  - unfold ret. rewrite firstn_nil, app_nil_r. eauto.
  - unfold bind.
    destruct (fetch_article_total self u s) as [r [s1 E]]. rewrite E.
    destruct r as [a |]; simpl; [| apply IH].
    destruct (len (acc ++ [a]) >=? limit) eqn:E4.
    + rewrite (room_last _ _ _ E4). unfold ret. simpl. eauto.
    + rewrite (room_more _ _ _ E4). simpl.
      destruct (IH (acc ++ [a]) s1) as [s2 E2]. rewrite E2.
      rewrite <- app_assoc. eauto.
Qed.

End Running.

(** ** A small web, for running the scrapers *)

Module Example.

Definition a (href : string) : node := Tag "a" [("href", href)] [].

(** A New York Times front page: five article links, a repeated one, a
    section link and a link to a 2025 article. *)
Definition front_page : BeautifulSoup :=
  [Tag "html" []
     [Tag "body" []
        [a "/section/world";
         a "/2024/03/01/world/one.html";
         a "/2024/03/01/world/two.html";
         a "/2024/03/01/world/one.html";
         a "/2023/12/31/arts/three.html";
         a "/2025/01/05/us/later.html";
         a "/2024/03/02/us/four.html";
         a "/2024/03/02/us/five.html"]]].

(** A BBC front page on which one article is linked twice. *)
Definition bbc_front_page : BeautifulSoup :=
  [Tag "html" []
     [Tag "body" []
        [a "/news/world-europe-12345678";
         a "/news/world-europe-12345678";
         a "/sport"]]].

Definition article_page : BeautifulSoup :=
  [Tag "html" []
     [Tag "body" []
        [Tag "h1" [("data-testid", "headline")] [NavigableString " One "];
         Tag "time" [("datetime", "2024-03-01T12:00:00Z")] [];
         Tag "section" [("name", "articleBody")]
           [Tag "p" [] [NavigableString "First."];
            Tag "p" [] [NavigableString " Second. "]]]]].

Definition ok (u : string) (page : BeautifulSoup) : exn + Response :=
  inr (mk_Response 200 "OK" u page None).

(** The article [two.html] is gone (404), [four.html] is answered by
    304 with no body, no host answers for [down.example], and every other
    URL is served. *)
Definition world : World :=
  mk_World
    (fun _ u =>
       if String.eqb u "https://www.nytimes.com" then ok u front_page
       else if String.eqb u "https://www.bbc.com/news" then ok u bbc_front_page
       else if String.eqb u "https://www.nytimes.com/2024/03/01/world/two.html"
       then inr (mk_Response 404 "Not Found" u [] None)
       else if String.eqb u "https://www.nytimes.com/2024/03/02/us/four.html"
       then inr (mk_Response 304 "Not Modified" u [] None)
       else if String.eqb u "https://down.example/a"
       then inl (RequestException "Connection refused")
       else ok u article_page)
    (fun _ => 1 # 10)
    (fun _ => 1 # 100)
    (fun _ _ => 0%nat).

(** A scraper just built, on a clock that reads 1000. *)
Definition nytimes_state : State :=
  NewsScraper.initial_state world NYTimesScraper.config 1000.

Definition bbc_state : State :=
  NewsScraper.initial_state world BBCScraper.config 1000.

End Example.

(** ** URL discovery: the claims *)

Lemma nytimes_discover_In (soup : BeautifulSoup) (limit : Z) (url : string) :
  In url (NYTimesScraper.discover soup limit) ->
  exists link,
    In link (Soup.find_all "a" [AttrPresent "href"] soup) /\
    NYTimesDiscovery.qualifies (NYTimesScraper.href_of link) = true /\
    url = ("https://www.nytimes.com" ++ NYTimesScraper.href_of link)%string.
Proof.
  rewrite NYTimesDiscovery.nytimes_discover_spec. intros H.
  apply In_firstn in H. apply uniq_from_In in H. destruct H as [H _].
  unfold NYTimesDiscovery.candidates in H. apply in_map_iff in H.
  destruct H as [link [Hu Hl]]. apply filter_In in Hl.
  exists link. repeat split; try tauto. now symmetry.
Qed.

(** The path of a reference as a URL has it: what comes before the first
    [?] or [#]. *)
Fixpoint url_path (href : string) : string :=
  match href with
  | EmptyString => EmptyString
  | String c rest =>
      if Ascii.eqb c "?" || Ascii.eqb c "#" then EmptyString
      else String c (url_path rest)
  end.

(** A front page with a link that carries [/2023/] in its query only, and a
    link to an article of 2025 in a section named [2024]. *)
Definition year_text_page : BeautifulSoup :=
  [Tag "html" []
     [Tag "body" []
        [Example.a "/x?y=/2023/";
         Example.a "/2025/01/05/us/2024/recap.html"]]].

Definition year_text_world : World :=
  mk_World (fun _ u => Example.ok u year_text_page)
           (fun _ => 0%Q) (fun _ => 0%Q) (fun _ _ => 0%nat).

Lemma C10_counterexample :
  fst (NYTimesScraper._get_article_urls year_text_world 5
         (NewsScraper.initial_state year_text_world NYTimesScraper.config 1000))
  = Ok ["https://www.nytimes.com/x?y=/2023/";
        "https://www.nytimes.com/2025/01/05/us/2024/recap.html"] /\
  NYTimesScraper.discover year_text_page 5
  = ["https://www.nytimes.com/x?y=/2023/";
     "https://www.nytimes.com/2025/01/05/us/2024/recap.html"] /\
  url_path "/x?y=/2023/" = "/x" /\
  Str.contains "/2023/" (url_path "/x?y=/2023/") = false /\
  Str.contains "/2024/" (url_path "/x?y=/2023/") = false /\
  Str.startswith "/2025/01/05/us/2024/recap.html" "/2025/" = true.
Proof. repeat split; reflexivity. Qed.

(** C10 (amended). Every URL that the New York Times discovery returns is
    the base URL ["https://www.nytimes.com"] followed by the [href] of a link
    of the front page, and that [href] starts with [/] and contains the text
    [/2023/] or [/2024/] somewhere, be it in its path, its query or its
    fragment; so a link whose [href] has neither text is never among the
    discovered URLs, whatever the front page and the limit. *)
Theorem C10_nytimes_urls_carry_base_and_year
        (soup : BeautifulSoup) (limit : Z) (url : string) :
  In url (NYTimesScraper.discover soup limit) ->
  Str.startswith url "https://www.nytimes.com" = true /\
  (exists link,
      In link (Soup.find_all "a" [AttrPresent "href"] soup) /\
      url = ("https://www.nytimes.com" ++ NYTimesScraper.href_of link)%string /\
      Str.startswith (NYTimesScraper.href_of link) "/" = true /\
      (Str.contains "/2023/" (NYTimesScraper.href_of link) = true \/
       Str.contains "/2024/" (NYTimesScraper.href_of link) = true)) /\
  (forall href,
      Str.contains "/2023/" href = false ->
      Str.contains "/2024/" href = false ->
      url <> ("https://www.nytimes.com" ++ href)%string).
Proof.
  intros H. apply nytimes_discover_In in H.
  destruct H as [link [Hl [Hq ->]]].
  unfold NYTimesDiscovery.qualifies in Hq.
  apply andb_true_iff in Hq. destruct Hq as [Hs Hy].
  apply orb_true_iff in Hy.
  split; [apply startswith_append |]. split.
  - exists link. auto.
  - intros href H23 H24 Heq. apply append_inj_l in Heq. subst href.
    destruct Hy; congruence.
Qed.

Lemma C10_witness :
  Str.startswith "https://www.nytimes.com/2023/12/31/arts/three.html"
                 "https://www.nytimes.com" = true /\
  (exists link,
      In link (Soup.find_all "a" [AttrPresent "href"] Example.front_page) /\
      "https://www.nytimes.com/2023/12/31/arts/three.html"
      = ("https://www.nytimes.com" ++ NYTimesScraper.href_of link)%string /\
      Str.startswith (NYTimesScraper.href_of link) "/" = true /\
      (Str.contains "/2023/" (NYTimesScraper.href_of link) = true \/
       Str.contains "/2024/" (NYTimesScraper.href_of link) = true)) /\
  (forall href,
      Str.contains "/2023/" href = false ->
      Str.contains "/2024/" href = false ->
      "https://www.nytimes.com/2023/12/31/arts/three.html"
      <> ("https://www.nytimes.com" ++ href)%string).
Proof.
  apply (C10_nytimes_urls_carry_base_and_year Example.front_page 3).
  vm_compute. right. right. left. reflexivity.
Defined.

(** With a limit of at least 1 and no link repeated, discovery is the first
    [limit] qualifying links, in document order. *)
Lemma nytimes_discover_distinct (soup : BeautifulSoup) (limit : Z) :
  1 <= limit ->
  NoDup (NYTimesDiscovery.candidates "https://www.nytimes.com"
           (Soup.find_all "a" [AttrPresent "href"] soup)) ->
  NYTimesScraper.discover soup limit =
  firstn (Z.to_nat limit)
         (NYTimesDiscovery.candidates "https://www.nytimes.com"
            (Soup.find_all "a" [AttrPresent "href"] soup)).
Proof.
  intros Hl Hnd. rewrite NYTimesDiscovery.nytimes_discover_spec.
  rewrite Z.max_r by lia. simpl base_url.
  rewrite uniq_from_id; auto.
Qed.

Lemma bbc_discover_first (soup : BeautifulSoup) (limit : Z) :
  1 <= limit ->
  BBCScraper.discover soup limit =
  firstn (Z.to_nat limit)
         (BBCDiscovery.candidates (Soup.find_all "a" [AttrPresent "href"] soup)).
Proof.
  intros Hl. rewrite BBCDiscovery.bbc_discover_spec.
  now rewrite Z.max_r by lia.
Qed.

(** The scenario of five distinct qualifying links and a limit of 3. *)
Lemma nytimes_three_of_five (soup : BeautifulSoup) (u1 u2 u3 u4 u5 : string) :
  NYTimesDiscovery.candidates "https://www.nytimes.com"
    (Soup.find_all "a" [AttrPresent "href"] soup) = [u1; u2; u3; u4; u5] ->
  NoDup [u1; u2; u3; u4; u5] ->
  NYTimesScraper.discover soup 3 = [u1; u2; u3].
Proof.
  intros Hc Hnd. rewrite nytimes_discover_distinct by (rewrite ?Hc; auto; lia).
  rewrite Hc. reflexivity.
Qed.

Lemma bbc_three_of_five (soup : BeautifulSoup) (u1 u2 u3 u4 u5 : string) :
  BBCDiscovery.candidates (Soup.find_all "a" [AttrPresent "href"] soup)
  = [u1; u2; u3; u4; u5] ->
  BBCScraper.discover soup 3 = [u1; u2; u3].
Proof.
  intros Hc. rewrite bbc_discover_first by lia. rewrite Hc. reflexivity.
Qed.

Example nytimes_front_page_limit_3 :
  NYTimesScraper.discover Example.front_page 3 =
  [ "https://www.nytimes.com/2024/03/01/world/one.html";
    "https://www.nytimes.com/2024/03/01/world/two.html";
    "https://www.nytimes.com/2023/12/31/arts/three.html" ].
Proof. reflexivity. Qed.

(** C7. The claim bounds the length of the discovered list by [limit] for
    every limit.  With [limit = 0] both site scrapers return one URL: the
    bound is tested only after a URL has been appended.  (For limits of at
    least 1 the bound, the document order and the five-links scenario hold:
    [nytimes_discover_length], [bbc_discover_length],
    [nytimes_discover_distinct], [bbc_discover_first],
    [nytimes_three_of_five], [bbc_three_of_five].) *)
Theorem C7_discovery_with_limit_zero_returns_one_url :
  NYTimesScraper.discover Example.front_page 0
  = ["https://www.nytimes.com/2024/03/01/world/one.html"] /\
  BBCScraper.discover Example.bbc_front_page 0
  = ["https://www.bbc.com/news/world-europe-12345678"] /\
  fst (NYTimesScraper._get_article_urls Example.world 0 Example.nytimes_state)
  = Ok ["https://www.nytimes.com/2024/03/01/world/one.html"] /\
  ~ len (NYTimesScraper.discover Example.front_page 0) <= 0.
Proof.
  repeat split; try reflexivity.
  vm_compute. intros H. apply H. reflexivity.
Qed.

(** C3. The claim says that one discovery call never returns a URL twice.
    The BBC scraper does: it looks the [href] up in the collected list
    before it puts the host in front of it, so the test never finds it.
    (The New York Times scraper builds the URL first and never repeats one:
    [nytimes_discover_NoDup].) *)
Theorem C3_bbc_discovery_returns_a_url_twice :
  BBCScraper.discover Example.bbc_front_page 5
  = [ "https://www.bbc.com/news/world-europe-12345678";
      "https://www.bbc.com/news/world-europe-12345678" ] /\
  fst (BBCScraper._get_article_urls Example.world 5 Example.bbc_state)
  = Ok [ "https://www.bbc.com/news/world-europe-12345678";
         "https://www.bbc.com/news/world-europe-12345678" ] /\
  ~ NoDup (BBCScraper.discover Example.bbc_front_page 5).
Proof.
  repeat split; try reflexivity.
  intros H. vm_compute in H. inversion H as [|x l Hx Hl]; subst.
  apply Hx. now left.
Qed.

(** ** Fetching: failures, omission and the limit *)

(** What makes [_make_request] raise on the [n]-th request: no response at
    all, or a response with a status from 400 to 599. *)
Definition fetch_fails (w : World) (n : nat) (url : string) : Prop :=
  match requests_get w n url with
  | inl _ => True
  | inr r => 400 <= status_code r < 600
  end.

(** A failed fetch as the specification words it: no response, or a status
    outside 200 to 299. *)
Definition fetch_fails_non_2xx (w : World) (n : nat) (url : string) : Prop :=
  match requests_get w n url with
  | inl _ => True
  | inr r => ~ (200 <= status_code r < 300)
  end.

Lemma http_error_msg_status (r : Response) :
  400 <= status_code r < 600 <-> NewsScraper.http_error_msg r <> None.
Proof.
  unfold NewsScraper.http_error_msg. cbv zeta.
  destruct (Z.leb_spec 400 (status_code r)); destruct (Z.ltb_spec (status_code r) 500);
    destruct (Z.leb_spec 500 (status_code r)); destruct (Z.ltb_spec (status_code r) 600);
    simpl; split; intros; try lia; try congruence; try discriminate.
Qed.

Lemma fetch_fails_outcome (w : World) (n : nat) (url : string) :
  fetch_fails w n url <-> exists e, outcome w n url = inl e.
Proof.
  unfold fetch_fails, outcome.
  destruct (requests_get w n url) as [e | r].
  - split; eauto.
  - rewrite http_error_msg_status.
    destruct (NewsScraper.http_error_msg r); split.
    + eauto.
    + congruence.
    + congruence.
    + intros [e He]. discriminate.
Qed.

(** A method [_extract_date] that leaves the list of requests alone; the
    three classes have such a method. *)
Definition date_keeps_trace (self : Scraper) : Prop :=
  forall soup s, sent (snd (_extract_date self soup s)) = sent s.

Lemma fetch_article_sent (w : World) (self : Scraper) (url : string) (s : State) :
  date_keeps_trace self ->
  map snd (sent (snd (NewsScraper.fetch_article w self url s)))
  = map snd (sent s) ++ [url].
Proof.
  intros Hd. rewrite fetch_article_run.
  destruct (fetched w (List.length (sent s)) url) as [e | r]; simpl.
  - rewrite map_app. reflexivity.
  - specialize (Hd (text r) (requested w (config self) url s)).
    destruct (_extract_date self (text r) (requested w (config self) url s))
      as [[d | e] s']; simpl in *; rewrite Hd, map_app; reflexivity.
Qed.

(** The loop asks for a prefix of the URLs, in order, and leaves the rest
    alone only when the list is full. *)
Lemma fetch_loop_trace (w : World) (self : Scraper) (limit : Z) :
  date_keeps_trace self ->
  forall urls acc s,
  exists j arts s',
    NewsScraper.fetch_loop w self limit urls acc s = (Ok arts, s') /\
    map snd (sent s') = map snd (sent s) ++ firstn j urls /\
    ((j < List.length urls)%nat -> limit <= len arts).
Proof.
  intros Hd. induction urls as [|u rest IH]; intros acc s; simpl.
  - exists 0%nat, acc, s. unfold ret. rewrite app_nil_r.
    repeat split. simpl. lia.
  - unfold bind.
    pose proof (fetch_article_sent w self u s Hd) as Hs.
    destruct (fetch_article_total w self u s) as [r [s1 E]].
    rewrite E in *. simpl in Hs.
    assert (Hnext : forall acc',
      exists j arts s',
        NewsScraper.fetch_loop w self limit rest acc' s1 = (Ok arts, s') /\
        map snd (sent s') = map snd (sent s) ++ firstn j (u :: rest) /\
        ((j < S (List.length rest))%nat -> limit <= len arts)).
    { intros acc'. destruct (IH acc' s1) as [j [arts [s' [E1 [E2 E3]]]]].
      exists (S j), arts, s'. rewrite E2, Hs, <- app_assoc. simpl.
      repeat split; auto. intros. apply E3. lia. }
    destruct r as [a |]; [| apply Hnext].
    destruct (len (acc ++ [a]) >=? limit) eqn:E4; [| apply Hnext].
    exists 1%nat, (acc ++ [a]), s1. unfold ret. simpl.
    repeat split; auto. intros _. now apply Z.geb_le in E4.
Qed.

(** For a limit of at least 1 the batch holds at most [limit] articles:
    the first [limit] successes among the discovered URLs. *)
Lemma fetch_latest_spec (w : World) (self : Scraper) (limit : Z)
      (s s1 : State) (urls : list string) :
  _get_article_urls self limit s = (Ok urls, s1) ->
  exists s',
    NewsScraper.fetch_latest_articles w self limit s =
    (Ok (firstn (Z.to_nat (Z.max 1 limit)) (somes (outcomes w self urls s1))), s').
Proof.
  intros E. unfold NewsScraper.fetch_latest_articles, try_except, bind.
  rewrite E. destruct (fetch_loop_spec w self limit urls [] s1) as [s' E'].
  rewrite E'. simpl. unfold room. simpl. rewrite Z.sub_0_r. eauto.
Qed.

Lemma fetch_latest_length (w : World) (self : Scraper) (limit : Z)
      (s s' : State) (arts : list NewsArticle) :
  1 <= limit ->
  NewsScraper.fetch_latest_articles w self limit s = (Ok arts, s') ->
  len arts <= limit.
Proof.
  intros Hl. unfold NewsScraper.fetch_latest_articles, try_except, bind.
  destruct (_get_article_urls self limit s) as [[urls | e] s1].
  - destruct (fetch_loop_spec w self limit urls [] s1) as [s2 E'].
    rewrite E'. intros H. inversion H; subst.
    change ([] ++ ?x) with x. unfold len.
    pose proof (firstn_le_length (@room NewsArticle limit [])
                  (somes (outcomes w self urls s1))) as Hf.
    assert (Hr : @room NewsArticle limit [] = Z.to_nat limit).
    { unfold room, len. simpl. f_equal. lia. }
    rewrite Hr in *. lia.
  - unfold logger_error, ret. intros H. inversion H; subst. unfold len. simpl. lia.
Qed.

(** ** Dates *)

(** The non-empty [datetime] attribute of the first [time] element. *)
Definition datetime_attr (soup : BeautifulSoup) : option string :=
  match Soup.find "time" [] soup with
  | Some tag =>
      match Soup.tag_get "datetime" tag with
      | Some (String c v) => Some (String c v)
      | _ => None
      end
  | None => None
  end.

(** What [_extract_date] computes and what it logs, for whatever
    [datetime.fromisoformat] the interpreter brings. *)
Definition extracted_date_with (fromisoformat : string -> exn + datetime)
           (soup : BeautifulSoup) : option datetime :=
  match datetime_attr soup with
  | Some v =>
      match fromisoformat (Str.replace "Z" "+00:00" v) with
      | inr d => Some d
      | inl _ => None
      end
  | None => None
  end.

Definition date_log_with (fromisoformat : string -> exn + datetime)
           (soup : BeautifulSoup) : list (level * string) :=
  match datetime_attr soup with
  | Some v =>
      match fromisoformat (Str.replace "Z" "+00:00" v) with
      | inr _ => []
      | inl e => [(ERROR, ("Error parsing date: " ++ str e)%string)]
      end
  | None => []
  end.

(** The same with the parser of the embedding. *)
Definition extracted_date (soup : BeautifulSoup) : option datetime :=
  match datetime_attr soup with
  | Some v => Datetime.fromisoformat (Str.replace "Z" "+00:00" v)
  | None => None
  end.

Definition date_log (soup : BeautifulSoup) : list (level * string) :=
  match datetime_attr soup with
  | Some v =>
      match Datetime.fromisoformat (Str.replace "Z" "+00:00" v) with
      | Some _ => []
      | None =>
          [(ERROR, ("Error parsing date: " ++
                    Datetime.fromisoformat_error
                      (Str.replace "Z" "+00:00" v))%string)]
      end
  | None => []
  end.

Definition with_log (s : State) (records : list (level * string)) : State :=
  mk_State (clock s) (last_request_time s) (user_agent s)
           (random_calls s) (sent s) (log s ++ records).

Lemma with_log_nil (s : State) : with_log s [] = s.
Proof. destruct s. unfold with_log. simpl. now rewrite app_nil_r. Qed.

(** [fromisoformat] checks the ranges of the fields that [parse_isoformat]
    reads: the text of its exception is that of the grammar when there are no
    fields, and that of the constructors otherwise. *)
Lemma fromisoformat_fields (s : string) :
  Datetime.fromisoformat s =
  match Datetime.parse_isoformat s with
  | Some (y, mo, d, hh, mm, ss, us, tz) => Datetime.new y mo d hh mm ss us tz
  | None => None
  end.
Proof.
  unfold Datetime.fromisoformat, Datetime.parse_isoformat.
  repeat match goal with
         | |- context [match ?x with _ => _ end] => destruct x
         end; reflexivity.
Qed.

Lemma fromisoformat_error_cases (s : string) :
  Datetime.fromisoformat s = None ->
  (Datetime.parse_isoformat s = None /\
   Datetime.fromisoformat_error s
   = ("Invalid isoformat string: " ++ Str.repr s)%string) \/
  (exists d, Datetime.valid d = false /\
             Datetime.fromisoformat_error s = Datetime.out_of_range d).
Proof.
  rewrite fromisoformat_fields. unfold Datetime.fromisoformat_error.
  destruct (Datetime.parse_isoformat s)
    as [[[[[[[[y mo] d] hh] mm] ss] us] tz] |]; [| now left].
  unfold Datetime.new. intros H. right.
  exists (mk_datetime y mo d hh mm ss us tz). split; [| reflexivity].
  destruct (Datetime.valid (mk_datetime y mo d hh mm ss us tz));
    [discriminate | reflexivity].
Qed.

Lemma extracted_date_with_embedded (soup : BeautifulSoup) :
  extracted_date_with datetime_fromisoformat soup = extracted_date soup.
Proof.
  unfold extracted_date_with, extracted_date, datetime_fromisoformat.
  destruct (datetime_attr soup) as [v |]; [| reflexivity].
  destruct (Datetime.fromisoformat (Str.replace "Z" "+00:00" v)); reflexivity.
Qed.

Lemma date_log_with_embedded (soup : BeautifulSoup) :
  date_log_with datetime_fromisoformat soup = date_log soup.
Proof.
  unfold date_log_with, date_log, datetime_fromisoformat.
  destruct (datetime_attr soup) as [v |]; [| reflexivity].
  destruct (Datetime.fromisoformat (Str.replace "Z" "+00:00" v)); reflexivity.
Qed.

Lemma nytimes_extract_date_with_run
      (fromisoformat : string -> exn + datetime)
      (soup : BeautifulSoup) (s : State) :
  NYTimesScraper._extract_date_with fromisoformat soup s
  = (Ok (extracted_date_with fromisoformat soup),
     with_log s (date_log_with fromisoformat soup)).
Proof.
  unfold NYTimesScraper._extract_date_with, extracted_date_with,
    date_log_with, datetime_attr, try_except.
  destruct (Soup.find "time" [] soup) as [tag |];
    [| now rewrite with_log_nil].
  destruct (Soup.tag_get "datetime" tag) as [[| c v] |];
    try now rewrite with_log_nil.
  destruct (fromisoformat (Str.replace "Z" "+00:00" (String c v)));
    [reflexivity | now rewrite with_log_nil].
Qed.

Lemma bbc_extract_date_with_run
      (fromisoformat : string -> exn + datetime)
      (soup : BeautifulSoup) (s : State) :
  BBCScraper._extract_date_with fromisoformat soup s
  = (Ok (extracted_date_with fromisoformat soup),
     with_log s (date_log_with fromisoformat soup)).
Proof.
  unfold BBCScraper._extract_date_with, extracted_date_with,
    date_log_with, datetime_attr, try_except.
  destruct (Soup.find "time" [] soup) as [tag |];
    [| now rewrite with_log_nil].
  destruct (Soup.tag_get "datetime" tag) as [[| c v] |];
    try now rewrite with_log_nil.
  destruct (fromisoformat (Str.replace "Z" "+00:00" (String c v)));
    [reflexivity | now rewrite with_log_nil].
Qed.

Lemma nytimes_extract_date_run (soup : BeautifulSoup) (s : State) :
  NYTimesScraper._extract_date soup s
  = (Ok (extracted_date soup), with_log s (date_log soup)).
Proof.
  unfold NYTimesScraper._extract_date.
  now rewrite nytimes_extract_date_with_run, extracted_date_with_embedded,
    date_log_with_embedded.
Qed.

Lemma bbc_extract_date_run (soup : BeautifulSoup) (s : State) :
  BBCScraper._extract_date soup s
  = (Ok (extracted_date soup), with_log s (date_log soup)).
Proof.
  unfold BBCScraper._extract_date.
  now rewrite bbc_extract_date_with_run, extracted_date_with_embedded,
    date_log_with_embedded.
Qed.

Lemma nytimes_date_keeps_trace (w : World) :
  date_keeps_trace (NYTimesScraper.self w).
Proof. intros soup s. simpl. now rewrite nytimes_extract_date_run. Qed.

Lemma bbc_date_keeps_trace (w : World) :
  date_keeps_trace (BBCScraper.self w).
Proof. intros soup s. simpl. now rewrite bbc_extract_date_run. Qed.

Lemma generic_date_keeps_trace (b : string) (ua : option (list string))
      (px : option (list (string * string))) (rl : option Q) :
  date_keeps_trace (NewsScraper.self b ua px rl).
Proof. intros soup s. reflexivity. Qed.

(** The normalisation as the specification words it: a [Z] at the end of the
    text becomes [+00:00]; nothing else changes. *)
Fixpoint normalize_trailing_Z (s : string) : string :=
  match s with
  | EmptyString => EmptyString
  | String c EmptyString =>
      if Ascii.eqb c "Z" then "+00:00" else String c EmptyString
  | String c s' => String c (normalize_trailing_Z s')
  end.

(** [extractDate] as the specification words it, for an ISO-8601 parser
    [iso8601]: the attribute is parsed after a trailing [Z] is normalised,
    and the date is absent when the attribute is missing or does not
    parse. *)
Definition extractDate_spec (iso8601 : string -> exn + datetime)
           (soup : BeautifulSoup) : option datetime :=
  match datetime_attr soup with
  | Some v =>
      match iso8601 (normalize_trailing_Z v) with
      | inr d => Some d
      | inl _ => None
      end
  | None => None
  end.

(** No [Z] before the last character. *)
Fixpoint no_inner_Z (s : string) : bool :=
  match s with
  | EmptyString => true
  | String c EmptyString => true
  | String c s' => negb (Ascii.eqb c "Z") && no_inner_Z s'
  end.

Lemma replace_Z_trailing (s : string) :
  no_inner_Z s = true -> Str.replace "Z" "+00:00" s = normalize_trailing_Z s.
Proof.
  induction s as [|c s IH]; [reflexivity |].
  destruct s as [|c' s'].
  - intros _. simpl. destruct (Ascii.eqb c "Z"); reflexivity.
  - intros H. change (no_inner_Z (String c (String c' s')))
      with (negb (Ascii.eqb c "Z") && no_inner_Z (String c' s')) in H.
    apply andb_true_iff in H. destruct H as [Hc Hs].
    change (normalize_trailing_Z (String c (String c' s')))
      with (String c (normalize_trailing_Z (String c' s'))).
    rewrite <- (IH Hs).
    change (Str.replace "Z" "+00:00" (String c (String c' s')))
      with (if Ascii.eqb c "Z"
            then ("+00:00" ++ Str.replace "Z" "+00:00" (String c' s'))%string
            else String c (Str.replace "Z" "+00:00" (String c' s'))).
    destruct (Ascii.eqb c "Z"); [discriminate | reflexivity].
Qed.

Definition time_tag (v : string) : BeautifulSoup :=
  [Tag "html" [] [Tag "body" [] [Tag "time" [("datetime", v)] []]]].

Definition utc_2024_03_01_noon : datetime :=
  mk_datetime 2024 3 1 12 0 0 0 (Some 0).

Example extract_date_scenario :
  extracted_date (time_tag "2024-03-01T12:00:00Z") = Some utc_2024_03_01_noon.
Proof. reflexivity. Qed.

(** What is logged when the text is in the grammar and a field is out of
    range, and when it is not in the grammar. *)
Example extract_date_logs_the_cause :
  date_log (time_tag "2024-02-30T12:00:00Z")
  = [(ERROR, "Error parsing date: day is out of range for month")] /\
  date_log (time_tag "2024-03-01T12:00:00+24:00")
  = [(ERROR, "Error parsing date: offset must be a timedelta strictly between -timedelta(hours=24) and timedelta(hours=24), not datetime.timedelta(days=1).")] /\
  date_log (time_tag "2024-03-01Z12:00:00")
  = [(ERROR, "Error parsing date: Invalid isoformat string: '2024-03-01+00:0012:00:00'")].
Proof. repeat split; reflexivity. Qed.

(** The attribute [2024-03-01T12:00Z:00] has no [Z] at its end and is not an
    ISO-8601 text: parsing it after normalising a trailing [Z] gives no date.
    The code replaces the [Z] in the middle, and what it hands to the parser,
    [2024-03-01T12:00+00:00:00], is 12:00 with the offset [+00:00:00]. *)
Lemma C6_counterexample :
  normalize_trailing_Z "2024-03-01T12:00Z:00" = "2024-03-01T12:00Z:00" /\
  extractDate_spec datetime_fromisoformat (time_tag "2024-03-01T12:00Z:00")
  = None /\
  NYTimesScraper._extract_date
    (time_tag "2024-03-01T12:00Z:00") Example.nytimes_state
  = (Ok (Some utc_2024_03_01_noon), Example.nytimes_state) /\
  BBCScraper._extract_date
    (time_tag "2024-03-01T12:00Z:00") Example.bbc_state
  = (Ok (Some utc_2024_03_01_noon), Example.bbc_state).
Proof. repeat split; reflexivity. Qed.

(** C6 (amended). Whatever [datetime.fromisoformat] the interpreter brings,
    whatever the parsed page and the state, [_extract_date] of the New York
    Times and BBC scrapers returns and never raises.  It reads the
    [datetime] attribute of the first [time] element.  When that attribute is
    missing or empty the date is absent and nothing is logged.  Otherwise
    every [Z] of the attribute (not only one at the end) is replaced by
    [+00:00] and the result is handed to [datetime.fromisoformat]: the date
    is what that call returns, or absent when the call raises, in which case
    one [ERROR] record with the text of the exception is logged.  When the
    attribute has no [Z] before its last character this is the parse after
    normalising a trailing [Z].  With a parser that reads
    [2024-03-01T12:00:00+00:00] as that instant, and so with the parser of
    the embedding, the attribute [2024-03-01T12:00:00Z] gives the instant
    2024-03-01T12:00:00+00:00. *)
Theorem C6_extract_date_replaces_every_Z
        (fromisoformat : string -> exn + datetime)
        (soup : BeautifulSoup) (s : State) :
  NYTimesScraper._extract_date_with fromisoformat soup s
  = (Ok (extracted_date_with fromisoformat soup),
     with_log s (date_log_with fromisoformat soup)) /\
  BBCScraper._extract_date_with fromisoformat soup s
  = (Ok (extracted_date_with fromisoformat soup),
     with_log s (date_log_with fromisoformat soup)) /\
  (datetime_attr soup = None ->
   extracted_date_with fromisoformat soup = None /\
   date_log_with fromisoformat soup = []) /\
  (forall v, datetime_attr soup = Some v ->
     match fromisoformat (Str.replace "Z" "+00:00" v) with
     | inr d =>
         extracted_date_with fromisoformat soup = Some d /\
         date_log_with fromisoformat soup = []
     | inl e =>
         extracted_date_with fromisoformat soup = None /\
         date_log_with fromisoformat soup
         = [(ERROR, ("Error parsing date: " ++ str e)%string)]
     end) /\
  (forall v, datetime_attr soup = Some v -> no_inner_Z v = true ->
     extracted_date_with fromisoformat soup
     = extractDate_spec fromisoformat soup) /\
  (datetime_attr soup = Some "2024-03-01T12:00:00Z" ->
   fromisoformat "2024-03-01T12:00:00+00:00" = inr utc_2024_03_01_noon ->
   extracted_date_with fromisoformat soup = Some utc_2024_03_01_noon /\
   date_log_with fromisoformat soup = []) /\
  NYTimesScraper._extract_date soup s
  = NYTimesScraper._extract_date_with datetime_fromisoformat soup s /\
  BBCScraper._extract_date soup s
  = BBCScraper._extract_date_with datetime_fromisoformat soup s /\
  (datetime_attr soup = Some "2024-03-01T12:00:00Z" ->
   NYTimesScraper._extract_date soup s = (Ok (Some utc_2024_03_01_noon), s) /\
   BBCScraper._extract_date soup s = (Ok (Some utc_2024_03_01_noon), s)).
Proof.
  split; [apply nytimes_extract_date_with_run |].
  split; [apply bbc_extract_date_with_run |].
  split.
  { unfold extracted_date_with, date_log_with. now intros ->. }
  split.
  { unfold extracted_date_with, date_log_with. intros v ->.
    destruct (fromisoformat (Str.replace "Z" "+00:00" v)); split; reflexivity. }
  split.
  { unfold extracted_date_with, extractDate_spec. intros v -> Hz.
    now rewrite replace_Z_trailing. }
  split.
  { unfold extracted_date_with, date_log_with. intros -> Hp.
    change (Str.replace "Z" "+00:00" "2024-03-01T12:00:00Z")
      with "2024-03-01T12:00:00+00:00".
    rewrite Hp. split; reflexivity. }
  split; [reflexivity |].
  split; [reflexivity |].
  intros Hv. rewrite nytimes_extract_date_run, bbc_extract_date_run.
  unfold extracted_date, date_log. rewrite Hv.
  change (Datetime.fromisoformat (Str.replace "Z" "+00:00" "2024-03-01T12:00:00Z"))
    with (Some utc_2024_03_01_noon).
  now rewrite with_log_nil.
Qed.

(** ** Fetching: the claims *)

(** C1. The claim bounds the batch by [limit] for every limit.  With
    [limit = 0] the New York Times scraper returns one article: discovery
    hands over one URL and the loop compares the length with the limit only
    after it has appended the article.  (For limits of at least 1 the batch
    is the first [limit] successful fetches, in discovery order, and the
    loop stops there: [fetch_latest_spec], [fetch_latest_length],
    [fetch_loop_spec], [fetch_loop_trace].) *)
Theorem C1_fetch_latest_with_limit_zero_returns_one_article :
  exists a s',
    NewsScraper.fetch_latest_articles
      Example.world (NYTimesScraper.self Example.world) 0 Example.nytimes_state
    = (Ok [a], s') /\
    url a = "https://www.nytimes.com/2024/03/01/world/one.html" /\
    title a = "One" /\
    ~ len [a] <= 0.
Proof.
  eexists. eexists. split; [vm_compute; reflexivity |].
  repeat split. vm_compute. intros H. apply H. reflexivity.
Qed.

Lemma C2_counterexample :
  fetch_fails_non_2xx Example.world 0
    "https://www.nytimes.com/2024/03/02/us/four.html" /\
  exists a s',
    NewsScraper.fetch_article
      Example.world (NYTimesScraper.self Example.world)
      "https://www.nytimes.com/2024/03/02/us/four.html" Example.nytimes_state
    = (Ok (Some a), s') /\
    title a = "Unknown Title" /\
    log s' = log Example.nytimes_state.
Proof.
  split.
  - unfold fetch_fails_non_2xx. simpl. lia.
  - eexists. eexists. split; [vm_compute; reflexivity |].
    split; reflexivity.
Qed.

(** C2 (amended). When the fetch of a URL fails, that is when the network
    gives no response or the response has an HTTP error status, 400 to 599
    (such as 404), [fetch_article] returns [None] and raises nothing, and it
    logs one [ERROR] record that names the URL and the cause; the batch loop
    of [fetch_latest_articles] goes on with the remaining URLs as if that URL
    had not been there.  [fetch_article] and [fetch_latest_articles] never
    raise, whatever happens; and when the fetch of the front page fails, the
    New York Times and BBC scrapers return an empty batch and log one
    [ERROR] record with the cause. *)
Theorem C2_failed_fetch_is_logged_and_omitted
        (w : World) (self : Scraper) (url : string) (s : State) :
  fetch_fails w (List.length (sent s)) url ->
  (exists e s',
      outcome w (List.length (sent s)) url = inl e /\
      NewsScraper.fetch_article w self url s = (Ok None, s') /\
      log s' = log s ++
               [(ERROR, ("Error fetching article " ++ url ++ ": " ++ str e)%string)] /\
      forall limit rest articles,
        NewsScraper.fetch_loop w self limit (url :: rest) articles s
        = NewsScraper.fetch_loop w self limit rest articles s') /\
  (forall u s0, exists r s1, NewsScraper.fetch_article w self u s0 = (Ok r, s1)) /\
  (forall limit s0, exists arts s1,
      NewsScraper.fetch_latest_articles w self limit s0 = (Ok arts, s1)) /\
  (forall limit s0 e,
      outcome w (List.length (sent s0)) "https://www.nytimes.com" = inl e ->
      exists s1,
        NewsScraper.fetch_latest_articles w (NYTimesScraper.self w) limit s0
        = (Ok [], s1) /\
        log s1 = log s0 ++
                 [(ERROR, ("Error getting article URLs: " ++ str e)%string)]) /\
  (forall limit s0 e,
      outcome w (List.length (sent s0)) "https://www.bbc.com/news" = inl e ->
      exists s1,
        NewsScraper.fetch_latest_articles w (BBCScraper.self w) limit s0
        = (Ok [], s1) /\
        log s1 = log s0 ++
                 [(ERROR, ("Error getting article URLs: " ++ str e)%string)]).
Proof.
  intros Hf. apply fetch_fails_outcome in Hf. destruct Hf as [e He].
  split; [| split; [| split; [| split]]].
  - exists e. eexists. split; [exact He |].
    rewrite fetch_article_run, (fetched_failed w _ _ _ He).
    split; [reflexivity |].
    split; [reflexivity |].
    intros limit rest articles. simpl. unfold bind.
    rewrite fetch_article_run, (fetched_failed w _ _ _ He). reflexivity.
  - intros u s0. apply fetch_article_total.
  - intros limit s0. apply fetch_latest_total.
  - intros limit s0 e0 H0.
    unfold NewsScraper.fetch_latest_articles, try_except, bind. simpl.
    rewrite nytimes_get_article_urls_run.
    rewrite (fetched_failed w _ (base_url NYTimesScraper.config) _ H0).
    simpl. unfold ret. eexists. split; reflexivity.
  - intros limit s0 e0 H0.
    unfold NewsScraper.fetch_latest_articles, try_except, bind. simpl.
    rewrite bbc_get_article_urls_run.
    rewrite (fetched_failed w _ (base_url BBCScraper.config) _ H0).
    simpl. unfold ret. eexists. split; reflexivity.
Qed.

Lemma C2_witness :
  exists s',
    NewsScraper.fetch_article
      Example.world (NYTimesScraper.self Example.world)
      "https://www.nytimes.com/2024/03/01/world/two.html" Example.nytimes_state
    = (Ok None, s') /\
    log s' = log Example.nytimes_state ++
             [(ERROR, "Error fetching article https://www.nytimes.com/2024/03/01/world/two.html: 404 Client Error: Not Found for url: https://www.nytimes.com/2024/03/01/world/two.html")].
Proof.
  assert (Hf : fetch_fails Example.world
                 (List.length (sent Example.nytimes_state))
                 "https://www.nytimes.com/2024/03/01/world/two.html").
  { unfold fetch_fails. simpl. lia. }
  destruct (C2_failed_fetch_is_logged_and_omitted
              Example.world (NYTimesScraper.self Example.world) _ _ Hf)
    as [[e [s' [He [Hr [Hl _]]]]] _].
  exists s'. split; [exact Hr |].
  rewrite Hl. vm_compute in He. inversion He; subst e. reflexivity.
Defined.

(** ** Stripping and joining *)

Fixpoint all_space (s : string) : bool :=
  match s with
  | EmptyString => true
  | String c s' => Str.isspace c && all_space s'
  end.

(** No space at the front; no space at the back. *)
Definition starts_clean (s : string) : bool :=
  match s with
  | EmptyString => true
  | String c _ => negb (Str.isspace c)
  end.

Fixpoint ends_clean (s : string) : bool :=
  match s with
  | EmptyString => true
  | String c EmptyString => negb (Str.isspace c)
  | String _ s' => ends_clean s'
  end.

Lemma lstrip_empty (s : string) :
  Str.lstrip s = EmptyString <-> all_space s = true.
Proof.
  induction s as [|c s IH]; simpl; [tauto |].
  destruct (Str.isspace c); simpl; [exact IH |].
  split; discriminate.
Qed.

Lemma rstrip_empty (s : string) :
  Str.rstrip s = EmptyString <-> all_space s = true.
Proof.
  induction s as [|c s IH]; simpl; [tauto |].
  destruct (Str.rstrip s) eqn:E.
  - destruct (Str.isspace c); simpl; [tauto |]. split; discriminate.
  - split; [discriminate |]. intros H. apply andb_true_iff in H.
    destruct H as [_ H]. apply IH in H. discriminate.
Qed.

Lemma lstrip_all_space (s : string) :
  all_space (Str.lstrip s) = all_space s.
Proof.
  induction s as [|c s IH]; simpl; [reflexivity |].
  destruct (Str.isspace c) eqn:E; simpl; [exact IH | now rewrite E].
Qed.

Lemma strip_empty (s : string) :
  Str.strip s = EmptyString <-> all_space s = true.
Proof.
  unfold Str.strip. rewrite rstrip_empty, lstrip_all_space. tauto.
Qed.

Lemma lstrip_starts_clean (s : string) : starts_clean (Str.lstrip s) = true.
Proof.
  induction s as [|c s IH]; simpl; [reflexivity |].
  destruct (Str.isspace c) eqn:E; simpl; [exact IH | now rewrite E].
Qed.

Lemma rstrip_starts_clean (s : string) :
  starts_clean s = true -> starts_clean (Str.rstrip s) = true.
Proof.
  destruct s as [|c s]; simpl; [reflexivity |]. intros H.
  destruct (Str.rstrip s); [| exact H].
  destruct (Str.isspace c) eqn:E; [discriminate |].
  simpl. now rewrite E.
Qed.

Lemma rstrip_ends_clean (s : string) : ends_clean (Str.rstrip s) = true.
Proof.
  induction s as [|c s IH]; simpl; [reflexivity |].
  destruct (Str.rstrip s) as [|c' r] eqn:E.
  - destruct (Str.isspace c) eqn:Ec; simpl; [reflexivity | now rewrite Ec].
  - exact IH.
Qed.

Lemma lstrip_id (s : string) : starts_clean s = true -> Str.lstrip s = s.
Proof.
  destruct s as [|c s]; simpl; [reflexivity |].
  destruct (Str.isspace c); [discriminate | reflexivity].
Qed.

Lemma rstrip_id (s : string) : ends_clean s = true -> Str.rstrip s = s.
Proof.
  induction s as [|c s IH]; [reflexivity |].
  destruct s as [|c' s'].
  - simpl. destruct (Str.isspace c); [discriminate | reflexivity].
  - intros H. change (ends_clean (String c (String c' s')))
      with (ends_clean (String c' s')) in H.
    specialize (IH H).
    change (Str.rstrip (String c (String c' s')))
      with (match Str.rstrip (String c' s') with
            | EmptyString => if Str.isspace c then EmptyString
                             else String c EmptyString
            | r => String c r
            end).
    rewrite IH. reflexivity.
Qed.

(** A text is trimmed when [strip] leaves it as it is. *)
Lemma strip_id (s : string) :
  starts_clean s = true -> ends_clean s = true -> Str.strip s = s.
Proof.
  intros H1 H2. unfold Str.strip. rewrite (lstrip_id _ H1). now apply rstrip_id.
Qed.

Lemma strip_clean (s : string) :
  starts_clean (Str.strip s) = true /\ ends_clean (Str.strip s) = true.
Proof.
  unfold Str.strip. split.
  - apply rstrip_starts_clean, lstrip_starts_clean.
  - apply rstrip_ends_clean.
Qed.

Lemma strip_strip (s : string) : Str.strip (Str.strip s) = Str.strip s.
Proof. destruct (strip_clean s). now apply strip_id. Qed.

Lemma starts_clean_append (a b : string) :
  a <> EmptyString -> starts_clean a = true -> starts_clean (a ++ b) = true.
Proof. destruct a; [congruence | auto]. Qed.

Lemma ends_clean_append (a b : string) :
  b <> EmptyString -> ends_clean b = true -> ends_clean (a ++ b) = true.
Proof.
  intros Hb Hc. induction a as [|c a IH]; [exact Hc |].
  simpl. destruct (a ++ b)%string eqn:E; [| exact IH].
  destruct a; simpl in E; [congruence | discriminate].
Qed.

Lemma join_cons (sep p : string) (q : string) (ps : list string) :
  Str.join sep (p :: q :: ps) = (p ++ sep ++ Str.join sep (q :: ps))%string.
Proof. reflexivity. Qed.

Lemma join_starts_clean (p : string) (ps : list string) :
  p <> EmptyString -> starts_clean p = true ->
  starts_clean (Str.join " " (p :: ps)) = true.
Proof.
  intros Hp Hc. destruct ps as [|q ps]; [exact Hc |].
  rewrite join_cons. now apply starts_clean_append.
Qed.

Lemma join_ends_clean (ps : list string) (p : string) :
  last (p :: ps) EmptyString <> EmptyString ->
  ends_clean (last (p :: ps) EmptyString) = true ->
  ends_clean (Str.join " " (p :: ps)) = true.
Proof.
  revert p. induction ps as [|q ps IH]; intros p Hl Hc; [exact Hc |].
  rewrite join_cons.
  change (last (p :: q :: ps) EmptyString) with (last (q :: ps) EmptyString) in *.
  specialize (IH q Hl Hc).
  assert (HX : Str.join " " (q :: ps) <> EmptyString).
  { intros E. destruct ps as [|r ps].
    - simpl in E, Hl. congruence.
    - rewrite join_cons in E. destruct q; discriminate. }
  apply ends_clean_append; [discriminate |].
  destruct (Str.join " " (q :: ps)) eqn:EX; [congruence | exact IH].
Qed.

(** ** Titles *)

(** The element each class takes the title from. *)
Definition generic_title_tag (soup : BeautifulSoup) : option node :=
  Soup.find "h1" [] soup.

Definition nytimes_title_tag (soup : BeautifulSoup) : option node :=
  match Soup.find "h1" [AttrIs "data-testid" "headline"] soup with
  | Some t => Some t
  | None => Soup.find "h1" [] soup
  end.

Definition bbc_title_tag (soup : BeautifulSoup) : option node :=
  Soup.find "h1" [AttrIs "id" "main-heading"] soup.

Definition title_of (title_tag : option node) : string :=
  match title_tag with
  | Some t => Str.strip (Soup.text t)
  | None => "Unknown Title"
  end.

Definition empty_heading : BeautifulSoup :=
  [Tag "html" [] [Tag "body" [] [Tag "h1" [] []]]].

Definition blank_main_heading : BeautifulSoup :=
  [Tag "html" [] [Tag "body" []
     [Tag "h1" [("id", "main-heading")] [NavigableString "  "]]]].

Lemma C5_counterexample :
  NewsScraper._extract_title empty_heading = EmptyString /\
  NYTimesScraper._extract_title empty_heading = EmptyString /\
  BBCScraper._extract_title blank_main_heading = EmptyString.
Proof. repeat split; reflexivity. Qed.

(** C5 (amended). For the three classes and every parsed page,
    [_extract_title] returns ["Unknown Title"] when no title element is
    found, and otherwise the text of the element it found with the white
    space at both ends stripped; that result is the empty string exactly
    when the text of the element is empty or all white space. *)
Theorem C5_extract_title_sentinel_or_stripped_text (soup : BeautifulSoup) :
  NewsScraper._extract_title soup = title_of (generic_title_tag soup) /\
  NYTimesScraper._extract_title soup = title_of (nytimes_title_tag soup) /\
  BBCScraper._extract_title soup = title_of (bbc_title_tag soup) /\
  title_of None = "Unknown Title" /\
  forall t,
    title_of (Some t) = Str.strip (Soup.text t) /\
    Str.strip (title_of (Some t)) = title_of (Some t) /\
    (title_of (Some t) = EmptyString <-> all_space (Soup.text t) = true).
Proof.
  split; [reflexivity |]. split.
  { unfold NYTimesScraper._extract_title, nytimes_title_tag.
    destruct (Soup.find "h1" [AttrIs "data-testid" "headline"] soup);
      reflexivity. }
  split; [reflexivity |]. split; [reflexivity |].
  intros t. simpl. split; [reflexivity |]. split.
  - apply strip_strip.
  - apply strip_empty.
Qed.

(** ** Content *)

(** The paragraphs each class takes the content from. *)
Definition generic_blocks (soup : BeautifulSoup) : list node :=
  Soup.find_all "p" [] soup.

Definition nytimes_blocks (soup : BeautifulSoup) : list node :=
  match Soup.find "section" [AttrIs "name" "articleBody"] soup with
  | Some article_section => Soup.tag_find_all "p" [] article_section
  | None => Soup.find_all "p" [AttrIs "class" "css-axufdj"] soup
  end.

Definition bbc_blocks (soup : BeautifulSoup) : list node :=
  match Soup.find "article" [] soup with
  | Some article_body => Soup.tag_find_all "p" [] article_body
  | None => []
  end.

(** The stripped texts of the paragraphs. *)
Definition pieces (paragraphs : list node) : list string :=
  map (fun p => Str.strip (Soup.text p)) paragraphs.

(** The content as the specification words it: the texts joined by single
    spaces, and the whole trimmed. *)
Definition extractContent_spec (paragraphs : list node) : string :=
  Str.strip (Str.join " " (map Soup.text paragraphs)).

Lemma pieces_last_clean (ps : list node) (p : node) :
  ends_clean (last (pieces (p :: ps)) EmptyString) = true.
Proof.
  revert p. induction ps as [|q ps IH]; intros p.
  - simpl. apply strip_clean.
  - change (last (pieces (p :: q :: ps)) EmptyString)
      with (last (pieces (q :: ps)) EmptyString). apply IH.
Qed.

Lemma joined_pieces_trimmed (ps : list node) :
  hd EmptyString (pieces ps) <> EmptyString ->
  last (pieces ps) EmptyString <> EmptyString ->
  Str.strip (Str.join " " (pieces ps)) = Str.join " " (pieces ps).
Proof.
  destruct ps as [|p ps]; [reflexivity |]. intros Hh Hl.
  apply strip_id.
  - apply join_starts_clean; [exact Hh | apply strip_clean].
  - apply (join_ends_clean (pieces ps) (Str.strip (Soup.text p)));
      [exact Hl | apply (pieces_last_clean ps p)].
Qed.

Lemma append_assoc (a b c : string) :
  ((a ++ b) ++ c = a ++ (b ++ c))%string.
Proof. induction a as [|x a IH]; simpl; [reflexivity | now rewrite IH]. Qed.

Lemma join_snoc (x : string) (xs : list string) (y : string) :
  Str.join " " ((x :: xs) ++ [y])
  = (Str.join " " (x :: xs) ++ " " ++ y)%string.
Proof.
  revert x. induction xs as [|z xs IH]; intros x; [reflexivity |].
  change ((x :: z :: xs) ++ [y]) with (x :: ((z :: xs) ++ [y])).
  change ((z :: xs) ++ [y]) with (z :: (xs ++ [y])) at 1.
  rewrite join_cons.
  change (z :: (xs ++ [y])) with ((z :: xs) ++ [y]).
  rewrite IH, join_cons.
  now rewrite !append_assoc.
Qed.

Lemma ends_clean_space (a : string) : ends_clean (a ++ " ") = false.
Proof.
  induction a as [|c a IH]; [reflexivity |].
  simpl. destruct (a ++ " ")%string eqn:E; [| exact IH].
  destruct a; discriminate.
Qed.

(** A text that starts or ends with a space is not trimmed. *)
Lemma strip_front_space (s : string) : Str.strip (String " " s) <> String " " s.
Proof.
  intros E. pose proof (proj1 (strip_clean (String " " s))) as H.
  rewrite E in H. discriminate.
Qed.

Lemma strip_back_space (a : string) : Str.strip (a ++ " ") <> (a ++ " ")%string.
Proof.
  intros E. pose proof (proj2 (strip_clean (a ++ " "))) as H.
  rewrite E, ends_clean_space in H. discriminate.
Qed.

Lemma join_trimmed_ends (x y : string) (xs : list string) :
  Str.strip (Str.join " " (x :: y :: xs)) = Str.join " " (x :: y :: xs) ->
  x <> EmptyString /\ last (x :: y :: xs) EmptyString <> EmptyString.
Proof.
  intros H. split; intros E.
  - subst x. exact (strip_front_space _ H).
  - destruct (@exists_last _ (y :: xs)) as [front [z Hz]]; [discriminate |].
    change (x :: y :: xs) with ([x] ++ (y :: xs)) in E, H.
    rewrite Hz, app_assoc in E, H. rewrite last_last in E. subst z.
    change ([x] ++ front) with (x :: front) in H.
    rewrite join_snoc in H. exact (strip_back_space _ H).
Qed.

Lemma joined_pieces_trimmed_iff (ps : list node) :
  Str.strip (Str.join " " (pieces ps)) = Str.join " " (pieces ps) <->
  (List.length ps <= 1)%nat \/
  (hd EmptyString (pieces ps) <> EmptyString /\
   last (pieces ps) EmptyString <> EmptyString).
Proof.
  split.
  - intros H. destruct ps as [|p [|q ps]]; [left; simpl; lia.. |].
    right. exact (join_trimmed_ends _ _ _ H).
  - intros [H | [Hh Hl]]; [| now apply joined_pieces_trimmed].
    destruct ps as [|p [|q ps]]; [reflexivity | | simpl in H; lia].
    apply strip_strip.
Qed.

Lemma pieces_blank_first (p q : node) (ps : list node) :
  all_space (Soup.text p) = true ->
  Str.join " " (pieces (p :: q :: ps))
  = (" " ++ Str.join " " (pieces (q :: ps)))%string.
Proof.
  intros H. apply strip_empty in H.
  change (pieces (p :: q :: ps))
    with (Str.strip (Soup.text p) :: pieces (q :: ps)).
  now rewrite H.
Qed.

Lemma pieces_blank_last (front : list node) (p : node) :
  front <> [] ->
  all_space (Soup.text p) = true ->
  Str.join " " (pieces (front ++ [p]))
  = (Str.join " " (pieces front) ++ " ")%string.
Proof.
  intros Hf H. apply strip_empty in H.
  destruct front as [|q front]; [congruence |].
  unfold pieces. rewrite map_app. cbn [map].
  rewrite join_snoc, H. reflexivity.
Qed.

Definition blank_then_a : list node :=
  [Tag "p" [] [NavigableString " "]; Tag "p" [] [NavigableString "a"]].

Lemma C8_counterexample :
  NewsScraper._extract_content blank_then_a = " a" /\
  extractContent_spec (generic_blocks blank_then_a) = "a" /\
  Str.strip (NewsScraper._extract_content blank_then_a)
  <> NewsScraper._extract_content blank_then_a /\
  NYTimesScraper._extract_content
    [Tag "section" [("name", "articleBody")] blank_then_a] = " a" /\
  BBCScraper._extract_content [Tag "article" [] blank_then_a] = " a".
Proof. repeat split; try reflexivity. vm_compute. discriminate. Qed.

(** C8 (amended). For the three classes and every parsed page,
    [_extract_content] strips the text of each matched paragraph and joins
    the stripped texts with single spaces; it is the empty string when no
    paragraph is matched, and the stripped text of the paragraph when one is
    matched (the empty string when that paragraph is blank).  The joined
    text itself is not stripped.  It is trimmed exactly when at most one
    paragraph is matched or neither the first nor the last matched paragraph
    is blank: with two or more paragraphs, a blank first paragraph leaves a
    space at the front and a blank last paragraph a space at the back. *)
Theorem C8_extract_content_joins_stripped_paragraphs (soup : BeautifulSoup) :
  NewsScraper._extract_content soup = Str.join " " (pieces (generic_blocks soup)) /\
  NYTimesScraper._extract_content soup = Str.join " " (pieces (nytimes_blocks soup)) /\
  BBCScraper._extract_content soup = Str.join " " (pieces (bbc_blocks soup)) /\
  Str.join " " (pieces []) = EmptyString /\
  forall paragraphs,
    pieces paragraphs = map (fun p => Str.strip (Soup.text p)) paragraphs /\
    Forall (fun x => Str.strip x = x) (pieces paragraphs) /\
    (hd EmptyString (pieces paragraphs) <> EmptyString ->
     last (pieces paragraphs) EmptyString <> EmptyString ->
     Str.strip (Str.join " " (pieces paragraphs))
     = Str.join " " (pieces paragraphs)) /\
    (Str.strip (Str.join " " (pieces paragraphs))
     = Str.join " " (pieces paragraphs) <->
     (List.length paragraphs <= 1)%nat \/
     (hd EmptyString (pieces paragraphs) <> EmptyString /\
      last (pieces paragraphs) EmptyString <> EmptyString)) /\
    (forall p, paragraphs = [p] ->
       Str.join " " (pieces paragraphs) = Str.strip (Soup.text p) /\
       (all_space (Soup.text p) = true ->
        Str.join " " (pieces paragraphs) = EmptyString)) /\
    (forall p q rest, paragraphs = p :: q :: rest ->
       all_space (Soup.text p) = true ->
       Str.join " " (pieces paragraphs)
       = (" " ++ Str.join " " (pieces (q :: rest)))%string) /\
    (forall front p, paragraphs = front ++ [p] -> front <> [] ->
       all_space (Soup.text p) = true ->
       Str.join " " (pieces paragraphs)
       = (Str.join " " (pieces front) ++ " ")%string).
Proof.
  split; [reflexivity |]. split.
  { unfold NYTimesScraper._extract_content, nytimes_blocks.
    destruct (Soup.find "section" [AttrIs "name" "articleBody"] soup);
      reflexivity. }
  split.
  { unfold BBCScraper._extract_content, bbc_blocks.
    destruct (Soup.find "article" [] soup); reflexivity. }
  split; [reflexivity |].
  intros ps. split; [reflexivity |]. split.
  { unfold pieces. apply Forall_map. apply Forall_forall.
    intros p _. apply strip_strip. }
  split; [apply joined_pieces_trimmed |].
  split; [apply joined_pieces_trimmed_iff |].
  split.
  { intros p ->. split; [reflexivity |].
    intros H. now apply strip_empty. }
  split.
  { intros p q rest -> H. now apply pieces_blank_first. }
  intros front p -> Hf H. now apply pieces_blank_last.
Qed.

(** ** Pacing *)

(** Consecutive start times are at least [rl] apart. *)
Fixpoint paced (rl : Q) (starts : list Q) : Prop :=
  match starts with
  | t1 :: (t2 :: _) as rest => (t1 + rl <= t2)%Q /\ paced rl rest
  | _ => True
  end.

(** Time going by between two calls. *)
Definition elapse (d : Q) (s : State) : State :=
  mk_State (clock s + d) (last_request_time s) (user_agent s)
           (random_calls s) (sent s) (log s).

(** A run of requests through one scraper: before each request some time
    goes by; what the request returns or raises is left to the caller. *)
Fixpoint make_requests (w : World) (cfg : Config) (calls : list (Q * string))
         (s : State) : State :=
  match calls with
  | [] => s
  | (idle, url) :: rest =>
      make_requests w cfg rest
        (snd (NewsScraper._make_request w cfg url (elapse idle s)))
  end.

(** The stamp is the start time of the last request, if there was one. *)
Definition stamped (s : State) : Prop :=
  sent s = [] \/ exists l u, sent s = l ++ [(last_request_time s, u)].

Lemma paced_snoc (rl : Q) (l : list Q) (t t' : Q) :
  paced rl (l ++ [t]) -> (t + rl <= t')%Q -> paced rl ((l ++ [t]) ++ [t']).
Proof.
  intros Hp Ht. induction l as [|t1 l IH].
  - simpl. auto.
  - destruct l as [|t2 l].
    + simpl in *. tauto.
    + destruct Hp as [H12 Hp]. split; [exact H12 | apply IH, Hp].
Qed.

(** One request: the wait ends no sooner than [rate_limit] after the stamp,
    and the new stamp is the time at which the request starts. *)
Lemma start_time_waits (w : World) (cfg : Config) (s : State) :
  (0 <= oversleep w (List.length (sent s)))%Q ->
  (last_request_time s + rate_limit cfg <= start_time w cfg s)%Q.
Proof.
  intros Ho. unfold start_time.
  destruct (Qle_bool (rate_limit cfg) (clock s - last_request_time s)) eqn:E;
    simpl.
  - apply Qle_bool_iff in E. lra.
  - lra.
Qed.

Lemma make_request_paced (w : World) (cfg : Config) (url : string) (s : State) :
  (0 <= oversleep w (List.length (sent s)))%Q ->
  paced (rate_limit cfg) (map fst (sent s)) -> stamped s ->
  let s' := snd (NewsScraper._make_request w cfg url s) in
  paced (rate_limit cfg) (map fst (sent s')) /\ stamped s' /\
  sent s' = sent s ++ [(last_request_time s', url)] /\
  (last_request_time s + rate_limit cfg <= last_request_time s')%Q.
Proof.
  intros Ho Hp Hs. rewrite make_request_run.
  pose proof (start_time_waits w cfg s Ho) as Hw.
  cbn [snd requested sent last_request_time].
  split; [| split; [| split]].
  - rewrite map_app. destruct Hs as [E | [l [u E]]].
    + rewrite E. exact I.
    + rewrite E in *. rewrite map_app in *. cbn [map fst] in *.
      apply paced_snoc; assumption.
  - right. exists (sent s), url. reflexivity.
  - reflexivity.
  - exact Hw.
Qed.

Lemma make_requests_paced (w : World) (cfg : Config) (calls : list (Q * string)) :
  (forall n, 0 <= oversleep w n)%Q ->
  forall s,
    paced (rate_limit cfg) (map fst (sent s)) -> stamped s ->
    paced (rate_limit cfg) (map fst (sent (make_requests w cfg calls s))) /\
    map snd (sent (make_requests w cfg calls s))
    = map snd (sent s) ++ map snd calls.
Proof.
  intros Ho. induction calls as [|[idle url] rest IH]; intros s Hp Hs.
  - simpl. now rewrite app_nil_r.
  - simpl.
    destruct (make_request_paced w cfg url (elapse idle s) (Ho _) Hp Hs)
      as [Hp' [Hs' [E _]]].
    destruct (IH _ Hp' Hs') as [H1 H2]. split; [exact H1 |].
    rewrite H2, E, map_app. simpl. now rewrite <- app_assoc.
Qed.

(** C4. Whatever sequence of requests one scraper makes, with whatever
    idle time between them, the start times of two consecutive requests are
    at least [rate_limit] apart ([rate_limit] is 1 when the constructor is
    not given one).  Each [_make_request] first waits until [rate_limit] has
    gone by since [last_request_time], then sets [last_request_time] to the
    time after the wait, and that is the time at which the request starts.
    Time is exact here, and a sleep lasts at least as long as asked. *)
Theorem C4_consecutive_requests_are_paced
        (w : World) (cfg : Config) (calls : list (Q * string)) (t0 : Q) :
  (forall n, 0 <= oversleep w n)%Q ->
  let s := make_requests w cfg calls (NewsScraper.initial_state w cfg t0) in
  paced (rate_limit cfg) (map fst (sent s)) /\
  map snd (sent s) = map snd calls /\
  (forall b ua px, rate_limit (NewsScraper.__init__ b ua px None) = 1%Q) /\
  (forall url s0,
      let s1 := snd (NewsScraper._make_request w cfg url s0) in
      sent s1 = sent s0 ++ [(last_request_time s1, url)] /\
      (last_request_time s0 + rate_limit cfg <= last_request_time s1)%Q).
Proof.
  intros Ho s.
  destruct (make_requests_paced w cfg calls Ho
              (NewsScraper.initial_state w cfg t0)) as [H1 H2].
  - exact I.
  - now left.
  - split; [exact H1 |]. split; [exact H2 |]. split; [reflexivity |].
    intros url s0 s1. subst s1. rewrite make_request_run.
    split; [reflexivity |]. apply start_time_waits, Ho.
Qed.

(** Three requests: at once, a quarter of a second after the first answer,
    three seconds after the second. *)
Definition three_calls : list (Q * string) :=
  [ (0 # 1, "https://www.nytimes.com");
    (1 # 4, "https://www.nytimes.com/2024/03/01/world/one.html");
    (3 # 1, "https://www.nytimes.com/2024/03/01/world/two.html") ]%Q.

Lemma C4_witness :
  paced 1
    (map fst
       (sent (make_requests Example.world NYTimesScraper.config three_calls
                Example.nytimes_state))).
Proof.
  assert (Ho : forall n, (0 <= oversleep Example.world n)%Q).
  { intros n. simpl. lra. }
  exact (proj1 (C4_consecutive_requests_are_paced
                  Example.world NYTimesScraper.config three_calls 1000 Ho)).
Defined.

(** ** Printing and parsing dates *)

Module DatetimeFacts.
Import Datetime.
Local Open Scope string_scope.
Local Open Scope Z_scope.

Ltac zdm := Z.div_mod_to_equations; lia.

Lemma digit_val_digit (v : Z) : 0 <= v < 10 -> digit_val (digit v) = Some v.
Proof.
  intros H.
  assert (E : v = 0 \/ v = 1 \/ v = 2 \/ v = 3 \/ v = 4 \/ v = 5 \/ v = 6 \/
              v = 7 \/ v = 8 \/ v = 9) by lia.
  repeat (destruct E as [-> | E]; [reflexivity |]). subst. reflexivity.
Qed.

Lemma is_sign_digit (v : Z) : 0 <= v < 10 -> is_sign (digit v) = false.
Proof.
  intros H.
  assert (E : v = 0 \/ v = 1 \/ v = 2 \/ v = 3 \/ v = 4 \/ v = 5 \/ v = 6 \/
              v = 7 \/ v = 8 \/ v = 9) by lia.
  repeat (destruct E as [-> | E]; [reflexivity |]). subst. reflexivity.
Qed.

Lemma parse_digits_digit (k : nat) (acc v : Z) (s : string) :
  0 <= v < 10 ->
  parse_digits (S k) acc (String (digit v) s) = parse_digits k (10 * acc + v) s.
Proof. intros H. cbn [parse_digits]. now rewrite digit_val_digit. Qed.

Lemma parse_pad2 (n : Z) (rest : string) :
  0 <= n < 100 -> parse_digits 2 0 (pad2 n ++ rest) = Some (n, rest).
Proof.
  intros H. unfold pad2. cbn [append].
  rewrite !parse_digits_digit by zdm. cbn [parse_digits].
  f_equal. f_equal. zdm.
Qed.

Lemma parse_pad4 (n : Z) (rest : string) :
  0 <= n < 10000 -> parse_digits 4 0 (pad4 n ++ rest) = Some (n, rest).
Proof.
  intros H. unfold pad4, pad2. cbn [append].
  rewrite !parse_digits_digit by zdm. cbn [parse_digits].
  f_equal. f_equal. zdm.
Qed.

Lemma parse_fraction_pad6 (n : Z) (rest : string) :
  0 <= n < 1000000 ->
  parse_fraction (pad6 n ++ rest) = Some (n, rest).
Proof.
  intros H. unfold parse_fraction, pad6, pad4, pad2. cbn [append parse_digits].
  rewrite !digit_val_digit by zdm.
  rewrite is_sign_digit by zdm. cbn [parse_digits].
  f_equal. f_equal. zdm.
Qed.

(** What may follow the seconds in a printed time: nothing, or an offset. *)
Definition offset_like (rest : string) : Prop :=
  rest = EmptyString \/ exists r, rest = String "+" r \/ rest = String "-" r.

Lemma parse_printed_time (h m s us : Z) (rest : string) :
  0 <= h < 100 -> 0 <= m < 100 -> 0 <= s < 100 -> 0 <= us < 1000000 ->
  offset_like rest ->
  parse_hh_mm_ss_ff
    (pad2 h ++ ":" ++ pad2 m ++ ":" ++ pad2 s ++
     (if us =? 0 then EmptyString else "." ++ pad6 us) ++ rest)
  = Some (h, m, s, us, rest).
Proof.
  intros Hh Hm Hs Hus Hr. unfold parse_hh_mm_ss_ff.
  rewrite (parse_pad2 h) by assumption. cbn [append].
  rewrite (parse_pad2 m) by assumption. cbn [append].
  rewrite (parse_pad2 s) by assumption.
  destruct (Z.eqb_spec us 0) as [-> | Hne]; cbn [append].
  - destruct Hr as [-> | [r [-> | ->]]]; reflexivity.
  - now rewrite parse_fraction_pad6.
Qed.

Lemma parse_printed_hh_mm (h m : Z) :
  0 <= h < 100 -> 0 <= m < 100 ->
  parse_hh_mm_ss_ff (pad2 h ++ ":" ++ pad2 m) = Some (h, m, 0, 0, EmptyString).
Proof.
  intros Hh Hm. unfold parse_hh_mm_ss_ff.
  rewrite (parse_pad2 h) by assumption. cbn [append].
  replace (pad2 m) with (pad2 m ++ "") by (unfold pad2; reflexivity).
  rewrite (parse_pad2 m) by assumption. reflexivity.
Qed.

Lemma append_empty_r (s : string) : (s ++ "")%string = s.
Proof. induction s as [|c s IH]; simpl; congruence. Qed.

Lemma format_offset_like (tz : option Z) : offset_like (format_offset tz).
Proof.
  destruct tz as [off |]; [| now left]. right. unfold format_offset.
  destruct (off <? 0); cbn [append]; eauto.
Qed.

Lemma us_per_hour_eq : us_per_hour = 3600000000.
Proof. reflexivity. Qed.
Lemma us_per_minute_eq : us_per_minute = 60000000.
Proof. reflexivity. Qed.
Lemma us_per_second_eq : us_per_second = 1000000.
Proof. reflexivity. Qed.
Lemma us_per_day_eq : us_per_day = 86400000000.
Proof. reflexivity. Qed.

Lemma parse_printed_time_end (h m s us : Z) :
  0 <= h < 100 -> 0 <= m < 100 -> 0 <= s < 100 -> 0 <= us < 1000000 ->
  parse_hh_mm_ss_ff
    (pad2 h ++ ":" ++ pad2 m ++ ":" ++ pad2 s ++
     (if us =? 0 then EmptyString else "." ++ pad6 us))
  = Some (h, m, s, us, EmptyString).
Proof.
  intros Hh Hm Hs Hus.
  pose proof (parse_printed_time h m s us EmptyString Hh Hm Hs Hus
                (or_introl eq_refl)) as P.
  rewrite append_empty_r in P. exact P.
Qed.

(** The text of an offset, after its sign, parses back to its size. *)
Lemma parse_printed_offset (a : Z) :
  0 <= a < us_per_day ->
  (let n := String.length (offset_digits a) in
   ((n =? 5) || (n =? 8) || (n =? 15))%nat) = true /\
  exists th tm ts tus,
    parse_hh_mm_ss_ff (offset_digits a) = Some (th, tm, ts, tus, EmptyString) /\
    th * us_per_hour + tm * us_per_minute + ts * us_per_second + tus = a.
Proof.
  unfold offset_digits.
  rewrite us_per_day_eq, us_per_hour_eq, us_per_minute_eq, us_per_second_eq.
  intros Ha. cbv zeta.
  assert (Hh : 0 <= a / 3600000000 < 100) by zdm.
  assert (Hm : 0 <= a mod 3600000000 / 60000000 < 100) by zdm.
  assert (Hs : 0 <= a mod 60000000 / 1000000 < 100) by zdm.
  assert (Hu : 0 <= a mod 1000000 < 1000000) by zdm.
  destruct ((a mod 60000000 / 1000000 =? 0) && (a mod 1000000 =? 0)) eqn:E.
  - apply andb_true_iff in E. destruct E as [Es Eu].
    apply Z.eqb_eq in Es, Eu. split; [unfold pad2; reflexivity |].
    rewrite append_empty_r. rewrite parse_printed_hh_mm by assumption.
    do 4 eexists. split; [reflexivity |]. zdm.
  - split.
    + destruct (a mod 1000000 =? 0); unfold pad2, pad4, pad6; reflexivity.
    + rewrite parse_printed_time_end by assumption.
      do 4 eexists. split; [reflexivity |]. zdm.
Qed.

Lemma parse_printed_isoformat_time (h m s us : Z) (tz : option Z) :
  0 <= h < 100 -> 0 <= m < 100 -> 0 <= s < 100 -> 0 <= us < 1000000 ->
  match tz with
  | Some off => - us_per_day < off < us_per_day
  | None => True
  end ->
  parse_isoformat_time
    (pad2 h ++ ":" ++ pad2 m ++ ":" ++ pad2 s ++
     (if us =? 0 then EmptyString else "." ++ pad6 us) ++ format_offset tz)
  = Some (h, m, s, us, tz).
Proof.
  intros Hh Hm Hs Hus Htz. unfold parse_isoformat_time.
  rewrite parse_printed_time by (auto using format_offset_like).
  destruct tz as [off |]; [| reflexivity].
  unfold format_offset.
  destruct (parse_printed_offset (Z.abs off)) as [Hlen [th [tm [ts [tus [Hp Hsum]]]]]];
    [lia |].
  destruct (Z.ltb_spec off 0) as [Hneg | Hpos]; cbn [append];
    (match goal with |- context [is_sign ?c] =>
       change (is_sign c) with true end);
    cbv zeta in Hlen |- *; rewrite Hlen, Hp; cbv iota beta.
  - change (Ascii.eqb "-" "-") with true. cbv iota.
    rewrite Hsum. do 3 f_equal. lia.
  - change (Ascii.eqb "+" "-") with false. cbv iota.
    rewrite Hsum. do 3 f_equal. lia.
Qed.

Lemma days_in_month_le (y m : Z) : days_in_month y m <= 31.
Proof.
  unfold days_in_month.
  destruct (m =? 2); [destruct (is_leap y); lia |].
  destruct ((m =? 4) || (m =? 6) || (m =? 9) || (m =? 11)); lia.
Qed.

Lemma between_spec (lo x hi : Z) : between lo x hi = true <-> lo <= x <= hi.
Proof. unfold between. rewrite andb_true_iff, !Z.leb_le. tauto. Qed.

(** [fromisoformat] reads back what [isoformat] prints. *)
Theorem fromisoformat_isoformat (d : datetime) :
  valid d = true -> fromisoformat (isoformat d) = Some d.
Proof.
  intros Hv. pose proof Hv as Hv'. unfold valid in Hv'.
  repeat (apply andb_true_iff in Hv'; destruct Hv' as [Hv' ?]).
  repeat match goal with
         | H : between _ _ _ = true |- _ => apply between_spec in H
         end.
  apply Z.leb_le in Hv'.
  match goal with H : (year d <=? 9999) = true |- _ => apply Z.leb_le in H end.
  pose proof (days_in_month_le (year d) (month d)).
  unfold isoformat, fromisoformat.
  rewrite parse_pad4 by lia. cbn [append].
  rewrite parse_pad2 by lia. cbn [append].
  rewrite parse_pad2 by lia. cbn [append].
  assert (Htz : match tzinfo d with
                | Some off => - us_per_day < off < us_per_day
                | None => True
                end).
  { match goal with H : context [tzinfo d] |- _ => revert H end.
    destruct (tzinfo d); [| intros _; exact I].
    intros Ht. apply andb_true_iff in Ht. destruct Ht as [Ht1 Ht2].
    apply Z.ltb_lt in Ht1, Ht2. lia. }
  pose proof (parse_printed_isoformat_time
                (hour d) (minute d) (second d) (microsecond d) (tzinfo d)) as P.
  cbn [append] in P. rewrite P by (assumption || lia).
  clear - Hv. destruct d as [y mo dd h mi s us tz].
  change (new y mo dd h mi s us tz = Some (mk_datetime y mo dd h mi s us tz)).
  unfold new. rewrite Hv. reflexivity.
Qed.

End DatetimeFacts.

Arguments Datetime.isoformat : simpl never.
Arguments Datetime.fromisoformat : simpl never.

(** ** The dictionary of an article, and back *)

(** [d[k]], or [None] for a missing key. *)
Fixpoint dict_get (k : string) (d : list (string * value)) : option value :=
  match d with
  | [] => None
  | (k', v) :: rest => if String.eqb k k' then Some v else dict_get k rest
  end.

(** An optional text, or [None] when the value is a list. *)
Definition optional_text (v : value) : option (option string) :=
  match v with
  | VNone => Some None
  | VStr s => Some (Some s)
  | VList _ => None
  end.

(** An optional date from its ISO-8601 text. *)
Definition optional_date (v : value) : option (option datetime) :=
  match v with
  | VNone => Some None
  | VStr s => option_map Some (Datetime.fromisoformat s)
  | VList _ => None
  end.

(** Modelled from the spec: the way back from the flat key-value record to an
    article, which the module does not have (it only has [to_dict]).  The
    specification asks that "serializing it to the flat key-value record and
    back" preserves the fields, with "date(as ISO-8601 text or absent)": each
    key is read back into its field through the constructor, the date through
    ISO-8601 parsing, an absent value staying absent. *)
Definition from_dict (d : list (string * value)) : option NewsArticle :=
  match dict_get "title" d, dict_get "content" d, dict_get "url" d,
        dict_get "source" d, dict_get "categories" d with
  | Some (VStr title), Some (VStr content), Some (VStr url),
    Some (VStr source), Some (VList categories) =>
      match option_map optional_text (dict_get "author" d),
            option_map optional_date (dict_get "date" d),
            option_map optional_text (dict_get "summary" d) with
      | Some (Some author), Some (Some date), Some (Some summary) =>
          Some (Article.__init__ title content url source
                  author date summary (Some categories))
      | _, _, _ => None
      end
  | _, _, _, _, _ => None
  end.

Lemma init_categories (cs : list string) :
  match Some cs with
  | Some (c :: cs') => c :: cs'
  | _ => []
  end = cs.
Proof. destruct cs; reflexivity. Qed.

(** C9. For every article (whose date, if any, is a date that the [datetime]
    constructor accepts), [to_dict] followed by the way back gives an article
    with the same title, url, source, author, summary and categories (and
    content), and the same date: an absent date stays absent, a date comes
    back as the very same instant with the same offset. *)
Theorem C9_to_dict_round_trip (a : NewsArticle) :
  match date a with
  | Some d => Datetime.valid d = true
  | None => True
  end ->
  exists b,
    from_dict (Article.to_dict a) = Some b /\
    title b = title a /\ url b = url a /\ source b = source a /\
    author b = author a /\ summary b = summary a /\
    categories b = categories a /\ content b = content a /\
    date b = date a /\
    (date a = None -> date b = None).
Proof.
  intros Hd. exists a.
  split; [| repeat split; auto].
  destruct a as [t c u so au dt su cats]. simpl in Hd.
  unfold from_dict, Article.to_dict, Article.__init__. cbn.
  destruct au as [au |], su as [su |], dt as [dt |]; cbn;
    rewrite ?(DatetimeFacts.fromisoformat_isoformat _ Hd); cbn;
    rewrite init_categories; reflexivity.
Qed.

Definition sample_article : NewsArticle :=
  Article.__init__ "Test Title" "Test content" "https://example.com/article"
    "example.com" (Some "Test Author") (Some utc_2024_03_01_noon) None
    (Some ["news"; "test"]).

Lemma C9_witness :
  exists b,
    from_dict (Article.to_dict sample_article) = Some b /\
    title b = "Test Title" /\ date b = Some utc_2024_03_01_noon.
Proof.
  destruct (C9_to_dict_round_trip sample_article eq_refl)
    as [b [Hb [Ht [_ [_ [_ [_ [_ [_ [Hd _]]]]]]]]]].
  exists b. repeat split; assumption.
Defined.

(** * Further properties of the module *)

(** ** URL discovery *)

Lemma startswith_app_both (p s q : string) :
  Str.startswith (p ++ s) (p ++ q) = Str.startswith s q.
Proof.
  induction p as [|c p IH]; [reflexivity |].
  simpl. now rewrite startswith_cons, Ascii.eqb_refl.
Qed.

(** [_get_article_urls] of the two site scrapers always returns: the URLs
    discovered on the front page that was served, or none. *)
Lemma nytimes_get_article_urls_cases (w : World) (limit : Z) (s : State) :
  exists urls s',
    NYTimesScraper._get_article_urls w limit s = (Ok urls, s') /\
    (urls = [] \/ exists soup, urls = NYTimesScraper.discover soup limit).
Proof.
  rewrite nytimes_get_article_urls_run.
  destruct (fetched w (List.length (sent s)) (base_url NYTimesScraper.config))
    as [e | r]; do 2 eexists; split; try reflexivity; eauto.
Qed.

Lemma bbc_get_article_urls_cases (w : World) (limit : Z) (s : State) :
  exists urls s',
    BBCScraper._get_article_urls w limit s = (Ok urls, s') /\
    (urls = [] \/ exists soup, urls = BBCScraper.discover soup limit).
Proof.
  rewrite bbc_get_article_urls_run.
  destruct (fetched w (List.length (sent s)) (base_url BBCScraper.config))
    as [e | r]; do 2 eexists; split; try reflexivity; eauto.
Qed.

Lemma len_firstn_max {A} (limit : Z) (l : list A) :
  len (firstn (Z.to_nat (Z.max 1 limit)) l) <= Z.max 1 limit.
Proof.
  unfold len. pose proof (firstn_le_length (Z.to_nat (Z.max 1 limit)) l). lia.
Qed.

(** X1. The New York Times scraper never hands out the same URL twice: not from
    a parsed front page, and not from [_get_article_urls], whatever the
    network answers. *)
Theorem nytimes_urls_are_distinct (soup : BeautifulSoup) (limit : Z) :
  NoDup (NYTimesScraper.discover soup limit) /\
  forall w s, exists urls s',
      NYTimesScraper._get_article_urls w limit s = (Ok urls, s') /\
      NoDup urls.
Proof.
  split; [apply NYTimesDiscovery.nytimes_discover_NoDup |].
  intros w s.
  destruct (nytimes_get_article_urls_cases w limit s)
    as [urls [s' [E [-> | [soup' ->]]]]]; do 2 eexists; (split; [exact E |]).
  - constructor.
  - apply NYTimesDiscovery.nytimes_discover_NoDup.
Qed.

(** X2. Both site scrapers return at most [limit] URLs when [limit] is 1 or
    more, and at most one URL when it is less. *)
Theorem discovery_length_bound (limit : Z) :
  (forall soup, len (NYTimesScraper.discover soup limit) <= Z.max 1 limit) /\
  (forall soup, len (BBCScraper.discover soup limit) <= Z.max 1 limit) /\
  (forall w s, exists urls s',
      NYTimesScraper._get_article_urls w limit s = (Ok urls, s') /\
      len urls <= Z.max 1 limit) /\
  (forall w s, exists urls s',
      BBCScraper._get_article_urls w limit s = (Ok urls, s') /\
      len urls <= Z.max 1 limit).
Proof.
  assert (HN : forall soup, len (NYTimesScraper.discover soup limit) <= Z.max 1 limit).
  { intros soup. rewrite NYTimesDiscovery.nytimes_discover_spec.
    apply len_firstn_max. }
  assert (HB : forall soup, len (BBCScraper.discover soup limit) <= Z.max 1 limit).
  { intros soup. rewrite BBCDiscovery.bbc_discover_spec. apply len_firstn_max. }
  repeat split; auto; intros w s.
  - destruct (nytimes_get_article_urls_cases w limit s)
      as [urls [s' [E [-> | [soup' ->]]]]]; do 2 eexists; (split; [exact E |]); auto.
    unfold len. simpl. lia.
  - destruct (bbc_get_article_urls_cases w limit s)
      as [urls [s' [E [-> | [soup' ->]]]]]; do 2 eexists; (split; [exact E |]); auto.
    unfold len. simpl. lia.
Qed.

(** X3. What the New York Times loop computes: the URLs of the links whose
    [href] starts with [/] and contains [/2023/] or [/2024/], in document
    order, each URL once (its first occurrence), cut after [limit] of them
    (after one when [limit] is below 1). *)
Theorem nytimes_discovery_is_prefix_of_first_occurrences
        (soup : BeautifulSoup) (limit : Z) :
  NYTimesScraper.discover soup limit =
  firstn (Z.to_nat (Z.max 1 limit))
    (uniq_from []
       (map (fun link => ("https://www.nytimes.com" ++ NYTimesScraper.href_of link)%string)
          (filter (fun link =>
                     Str.startswith (NYTimesScraper.href_of link) "/" &&
                     (Str.contains "/2023/" (NYTimesScraper.href_of link) ||
                      Str.contains "/2024/" (NYTimesScraper.href_of link)))
                  (Soup.find_all "a" [AttrPresent "href"] soup)))).
Proof. apply NYTimesDiscovery.nytimes_discover_spec. Qed.

(** X4. What the BBC loop computes: the URLs of the links whose [href] starts
    with [/news/] and contains a hyphen, in document order, a link that
    occurs twice being taken twice, cut after [limit] of them (after one when
    [limit] is below 1). *)
Theorem bbc_discovery_is_prefix_of_qualifying_links
        (soup : BeautifulSoup) (limit : Z) :
  BBCScraper.discover soup limit =
  firstn (Z.to_nat (Z.max 1 limit))
    (map (fun link => ("https://www.bbc.com" ++ BBCScraper.href_of link)%string)
       (filter (fun link =>
                  Str.startswith (BBCScraper.href_of link) "/news/" &&
                  Str.contains "-" (BBCScraper.href_of link))
               (Soup.find_all "a" [AttrPresent "href"] soup))).
Proof. apply BBCDiscovery.bbc_discover_spec. Qed.

(** X5. Every URL that the BBC discovery returns starts with
    [https://www.bbc.com/news/] and is the host followed by an [href] of the
    page that contains a hyphen. *)
Theorem bbc_urls_are_news_urls (soup : BeautifulSoup) (limit : Z) (url : string) :
  In url (BBCScraper.discover soup limit) ->
  Str.startswith url "https://www.bbc.com/news/" = true /\
  exists link,
    In link (Soup.find_all "a" [AttrPresent "href"] soup) /\
    url = ("https://www.bbc.com" ++ BBCScraper.href_of link)%string /\
    Str.startswith (BBCScraper.href_of link) "/news/" = true /\
    Str.contains "-" (BBCScraper.href_of link) = true.
Proof.
  rewrite BBCDiscovery.bbc_discover_spec. intros H.
  apply In_firstn in H. unfold BBCDiscovery.candidates in H.
  apply in_map_iff in H. destruct H as [link [Hu Hl]].
  apply filter_In in Hl. destruct Hl as [Hl Hq].
  unfold BBCDiscovery.qualifies in Hq. apply andb_true_iff in Hq.
  destruct Hq as [Hs Hc]. subst url. split.
  - change "https://www.bbc.com/news/"
      with ("https://www.bbc.com" ++ "/news/")%string.
    now rewrite startswith_app_both.
  - exists link. auto.
Qed.

Lemma bbc_urls_are_news_urls_example :
  Str.startswith "https://www.bbc.com/news/world-europe-12345678"
                 "https://www.bbc.com/news/" = true.
Proof.
  apply (bbc_urls_are_news_urls Example.bbc_front_page 5).
  vm_compute. left. reflexivity.
Defined.

(** ** Fetching one article *)

(** X6. When the request succeeds and the parser accepts the page, the two
    site scrapers always return an article, whatever [datetime.fromisoformat]
    the interpreter brings: its fields are what the extraction methods find
    in the page, its url is the URL asked for, its source is the host of the
    scraper.  A date that does not parse leaves the date absent and adds one
    [ERROR] record; it does not lose the article. *)
Theorem site_fetch_article_success
        (fromisoformat : string -> exn + datetime)
        (w : World) (url : string) (s : State) (r : Response) :
  outcome w (List.length (sent s)) url = inr r ->
  markup_error r = None ->
  NewsScraper.fetch_article w (NYTimesScraper.self_with fromisoformat w) url s =
  (Ok (Some (mk_NewsArticle
               (NYTimesScraper._extract_title (text r))
               (NYTimesScraper._extract_content (text r))
               url "www.nytimes.com"
               (NYTimesScraper._extract_author (text r))
               (extracted_date_with fromisoformat (text r))
               (NYTimesScraper._extract_summary (text r))
               (NYTimesScraper._extract_categories (text r)))),
   with_log (requested w NYTimesScraper.config url s)
            (date_log_with fromisoformat (text r))) /\
  NewsScraper.fetch_article w (BBCScraper.self_with fromisoformat w) url s =
  (Ok (Some (mk_NewsArticle
               (BBCScraper._extract_title (text r))
               (BBCScraper._extract_content (text r))
               url "www.bbc.com"
               (BBCScraper._extract_author (text r))
               (extracted_date_with fromisoformat (text r))
               None [])),
   with_log (requested w BBCScraper.config url s)
            (date_log_with fromisoformat (text r))) /\
  NewsScraper.fetch_article w (NYTimesScraper.self w) url s =
  NewsScraper.fetch_article
    w (NYTimesScraper.self_with datetime_fromisoformat w) url s /\
  NewsScraper.fetch_article w (BBCScraper.self w) url s =
  NewsScraper.fetch_article
    w (BBCScraper.self_with datetime_fromisoformat w) url s.
Proof.
  intros H Hm.
  split; [| split; [| split; reflexivity]];
    rewrite fetch_article_run, (fetched_served w _ _ _ H Hm).
  - cbn [_extract_date NYTimesScraper.self_with config].
    rewrite nytimes_extract_date_with_run.
    unfold Article.__init__. rewrite init_categories. reflexivity.
  - cbn [_extract_date BBCScraper.self_with config].
    rewrite bbc_extract_date_with_run. reflexivity.
Qed.

Lemma site_fetch_article_success_example :
  exists s',
    NewsScraper.fetch_article Example.world (NYTimesScraper.self Example.world)
      "https://www.nytimes.com/2024/03/01/world/one.html" Example.nytimes_state
    = (Ok (Some (mk_NewsArticle "One" "First. Second."
                   "https://www.nytimes.com/2024/03/01/world/one.html"
                   "www.nytimes.com" None (Some utc_2024_03_01_noon) None [])),
       s').
Proof.
  eexists.
  exact (proj1 (site_fetch_article_success datetime_fromisoformat Example.world
                  "https://www.nytimes.com/2024/03/01/world/one.html"
                  Example.nytimes_state
                  (mk_Response 200 "OK"
                     "https://www.nytimes.com/2024/03/01/world/one.html"
                     Example.article_page None)
                  eq_refl eq_refl)).
Defined.

(** The parser rejects the body of the response to the [n]-th request. *)
Definition markup_rejected (w : World) (n : nat) (url : string) : Prop :=
  match requests_get w n url with
  | inl _ => False
  | inr r => markup_error r <> None
  end.

Lemma fetched_fails (w : World) (n : nat) (url : string) :
  (exists e, fetched w n url = inl e) <->
  fetch_fails w n url \/ markup_rejected w n url.
Proof.
  unfold fetched. rewrite fetch_fails_outcome.
  unfold markup_rejected, outcome.
  destruct (requests_get w n url) as [e | r].
  - split; [eauto | intros _; eauto].
  - destruct (NewsScraper.http_error_msg r) as [msg |].
    + split; [eauto | intros _; eauto].
    + destruct (markup_error r) as [msg |].
      * split; [intros _; right; discriminate | intros _; eauto].
      * split; [intros [e He]; discriminate |].
        intros [[e He] | Hn]; [discriminate | congruence].
Qed.

(** X7. For the three classes, [fetch_article] returns [None] exactly when
    the request fails (no response, or a status from 400 to 599) or the
    parser rejects the page: the extraction methods themselves never cost
    the article. *)
Theorem fetch_article_none_iff_fetch_fails
        (w : World) (url : string) (s : State) :
  (fst (NewsScraper.fetch_article w (NYTimesScraper.self w) url s) = Ok None
   <-> fetch_fails w (List.length (sent s)) url \/
       markup_rejected w (List.length (sent s)) url) /\
  (fst (NewsScraper.fetch_article w (BBCScraper.self w) url s) = Ok None
   <-> fetch_fails w (List.length (sent s)) url \/
       markup_rejected w (List.length (sent s)) url) /\
  (forall b ua px rl,
      fst (NewsScraper.fetch_article w (NewsScraper.self b ua px rl) url s)
      = Ok None
      <-> fetch_fails w (List.length (sent s)) url \/
          markup_rejected w (List.length (sent s)) url).
Proof.
  assert (Hno : forall (x : result (option NewsArticle)),
             (exists a, x = Ok (Some a)) ->
             forall r : Response,
               x = Ok None <-> exists e : exn, @inr exn Response r = inl e).
  { intros x [a ->] r. split; [discriminate | intros [e He]; discriminate]. }
  split; [| split; [| intros b ua px rl]];
    rewrite <- fetched_fails, fetch_article_run;
    destruct (fetched w (List.length (sent s)) url) as [e | r] eqn:E;
    try (split; [intros _; exists e; reflexivity | intros _; reflexivity]).
  - cbn [_extract_date NYTimesScraper.self]. rewrite nytimes_extract_date_run.
    apply Hno. eexists. reflexivity.
  - cbn [_extract_date BBCScraper.self]. rewrite bbc_extract_date_run.
    apply Hno. eexists. reflexivity.
  - apply Hno. eexists. reflexivity.
Qed.

(** ** Fetching a batch *)

(** [l1] is [l2] with some items left out, the order kept. *)
Inductive subseq {A : Type} : list A -> list A -> Prop :=
| subseq_nil : subseq [] []
| subseq_skip x l1 l2 : subseq l1 l2 -> subseq l1 (x :: l2)
| subseq_take x l1 l2 : subseq l1 l2 -> subseq (x :: l1) (x :: l2).

Lemma subseq_nil_l {A} (l : list A) : subseq [] l.
Proof. induction l; constructor; auto. Qed.

Lemma subseq_firstn {A} (n : nat) (l1 l2 : list A) :
  subseq l1 l2 -> subseq (firstn n l1) l2.
Proof.
  intros H. revert n. induction H; intros n.
  - rewrite firstn_nil. constructor.
  - constructor. apply IHsubseq.
  - destruct n; simpl; [apply subseq_nil_l | constructor; apply IHsubseq].
Qed.

(** An article that [fetch_article] returns carries the URL it was asked
    for and the host of the scraper. *)
Lemma fetch_article_url_source (w : World) (self : Scraper) (u : string)
      (s s' : State) (a : NewsArticle) :
  NewsScraper.fetch_article w self u s = (Ok (Some a), s') ->
  url a = u /\ source a = domain (config self).
Proof.
  rewrite fetch_article_run.
  destruct (fetched w (List.length (sent s)) u) as [e | r]; [discriminate |].
  destruct (_extract_date self (text r) (requested w (config self) u s))
    as [[d | e] s1]; [| discriminate].
  intros H. inversion H; subst. split; reflexivity.
Qed.

Lemma outcomes_url_source (w : World) (self : Scraper) (urls : list string) :
  forall s,
    subseq (map url (somes (outcomes w self urls s))) urls /\
    Forall (fun a => source a = domain (config self))
           (somes (outcomes w self urls s)).
Proof.
  induction urls as [|u rest IH]; intros s; simpl.
  - split; constructor.
  - destruct (NewsScraper.fetch_article w self u s) as [[[a |] | e] s1] eqn:E;
      simpl.
    + destruct (fetch_article_url_source w self u s s1 a E) as [Hu Hs].
      destruct (IH s1) as [H1 H2]. rewrite Hu.
      split; [apply subseq_take; exact H1 | constructor; auto].
    + destruct (IH s1) as [H1 H2]. split; [apply subseq_skip |]; auto.
    + split; [apply subseq_nil_l | constructor].
Qed.

(** X8. Whatever the scraper, the articles of a batch come from the discovered
    URLs, in discovery order (some URLs may be left out, none is added or
    moved), and each article names the scraper's host as its source. *)
Theorem fetch_latest_articles_follow_discovery
        (w : World) (self : Scraper) (limit : Z) (s s1 : State)
        (urls : list string) :
  _get_article_urls self limit s = (Ok urls, s1) ->
  exists arts s',
    NewsScraper.fetch_latest_articles w self limit s = (Ok arts, s') /\
    subseq (map url arts) urls /\
    Forall (fun a => source a = domain (config self)) arts.
Proof.
  intros E. destruct (fetch_latest_spec w self limit s s1 urls E) as [s' E'].
  do 2 eexists. split; [exact E' |].
  destruct (outcomes_url_source w self urls s1) as [H1 H2]. split.
  - rewrite <- firstn_map. now apply subseq_firstn.
  - rewrite Forall_forall in *. intros a Ha. apply H2.
    eapply In_firstn; eauto.
Qed.

Lemma fetch_latest_articles_follow_discovery_example :
  exists arts s',
    NewsScraper.fetch_latest_articles
      Example.world (NYTimesScraper.self Example.world) 3 Example.nytimes_state
    = (Ok arts, s') /\
    subseq (map url arts)
      [ "https://www.nytimes.com/2024/03/01/world/one.html";
        "https://www.nytimes.com/2024/03/01/world/two.html";
        "https://www.nytimes.com/2023/12/31/arts/three.html" ] /\
    Forall (fun a => source a = "www.nytimes.com") arts.
Proof.
  eapply (fetch_latest_articles_follow_discovery
            Example.world (NYTimesScraper.self Example.world) 3
            Example.nytimes_state).
  vm_compute. reflexivity.
Defined.

(** X9. With a limit of 1 or more, a batch never holds more than [limit]
    articles, whatever the scraper and the network. *)
Theorem fetch_latest_articles_at_most_limit
        (w : World) (self : Scraper) (limit : Z) (s : State) :
  1 <= limit ->
  exists arts s',
    NewsScraper.fetch_latest_articles w self limit s = (Ok arts, s') /\
    len arts <= limit.
Proof.
  intros Hl. destruct (fetch_latest_total w self limit s) as [arts [s' E]].
  exists arts, s'. split; [exact E |].
  eapply fetch_latest_length; eauto.
Qed.

Lemma fetch_latest_articles_at_most_limit_example :
  exists arts s',
    NewsScraper.fetch_latest_articles
      Example.world (NYTimesScraper.self Example.world) 2 Example.nytimes_state
    = (Ok arts, s') /\
    len arts <= 2.
Proof.
  apply (fetch_latest_articles_at_most_limit
           Example.world (NYTimesScraper.self Example.world) 2
           Example.nytimes_state).
  lia.
Defined.

Lemma nytimes_front_page_sent (w : World) (limit : Z) (s : State) :
  map snd (sent (snd (NYTimesScraper._get_article_urls w limit s)))
  = map snd (sent s) ++ ["https://www.nytimes.com"].
Proof.
  rewrite nytimes_get_article_urls_run.
  destruct (fetched w (List.length (sent s)) (base_url NYTimesScraper.config));
    simpl; rewrite map_app; reflexivity.
Qed.

Lemma bbc_front_page_sent (w : World) (limit : Z) (s : State) :
  map snd (sent (snd (BBCScraper._get_article_urls w limit s)))
  = map snd (sent s) ++ ["https://www.bbc.com/news"].
Proof.
  rewrite bbc_get_article_urls_run.
  destruct (fetched w (List.length (sent s)) (base_url BBCScraper.config));
    simpl; rewrite map_app; reflexivity.
Qed.

(** X10. The requests of a batch, for the two site scrapers: first the front
    page, then the discovered URLs one after the other, in order.  There are
    at most [limit] discovered URLs (one when [limit] is below 1), and a
    discovered URL is left unrequested only when the batch already holds
    [limit] articles. *)
Theorem site_batch_requests (w : World) (limit : Z) (s : State) :
  (exists urls s1 arts s' j,
      NYTimesScraper._get_article_urls w limit s = (Ok urls, s1) /\
      NewsScraper.fetch_latest_articles w (NYTimesScraper.self w) limit s
      = (Ok arts, s') /\
      map snd (sent s')
      = map snd (sent s) ++ "https://www.nytimes.com" :: firstn j urls /\
      len urls <= Z.max 1 limit /\
      ((j < List.length urls)%nat -> limit <= len arts)) /\
  (exists urls s1 arts s' j,
      BBCScraper._get_article_urls w limit s = (Ok urls, s1) /\
      NewsScraper.fetch_latest_articles w (BBCScraper.self w) limit s
      = (Ok arts, s') /\
      map snd (sent s')
      = map snd (sent s) ++ "https://www.bbc.com/news" :: firstn j urls /\
      len urls <= Z.max 1 limit /\
      ((j < List.length urls)%nat -> limit <= len arts)).
Proof.
  split.
  - pose proof (nytimes_front_page_sent w limit s) as Hs.
    destruct (nytimes_get_article_urls_cases w limit s) as [urls [s1 [E Hu]]].
    rewrite E in Hs. simpl in Hs.
    destruct (fetch_loop_trace w (NYTimesScraper.self w) limit
                (nytimes_date_keeps_trace w) urls [] s1)
      as [j [arts [s' [El [Et Hj]]]]].
    exists urls, s1, arts, s', j. split; [exact E |]. split.
    + unfold NewsScraper.fetch_latest_articles, try_except, bind.
      cbn [_get_article_urls NYTimesScraper.self]. rewrite E. now rewrite El.
    + split; [rewrite Et, Hs, <- app_assoc; reflexivity |]. split; [| exact Hj].
      destruct Hu as [-> | [soup ->]].
      * unfold len. simpl. lia.
      * rewrite NYTimesDiscovery.nytimes_discover_spec. apply len_firstn_max.
  - pose proof (bbc_front_page_sent w limit s) as Hs.
    destruct (bbc_get_article_urls_cases w limit s) as [urls [s1 [E Hu]]].
    rewrite E in Hs. simpl in Hs.
    destruct (fetch_loop_trace w (BBCScraper.self w) limit
                (bbc_date_keeps_trace w) urls [] s1)
      as [j [arts [s' [El [Et Hj]]]]].
    exists urls, s1, arts, s', j. split; [exact E |]. split.
    + unfold NewsScraper.fetch_latest_articles, try_except, bind.
      cbn [_get_article_urls BBCScraper.self]. rewrite E. now rewrite El.
    + split; [rewrite Et, Hs, <- app_assoc; reflexivity |]. split; [| exact Hj].
      destruct Hu as [-> | [soup ->]].
      * unfold len. simpl. lia.
      * rewrite BBCDiscovery.bbc_discover_spec. apply len_firstn_max.
Qed.

Lemma fetch_loop_all_fail (w : World) (self : Scraper) (limit : Z)
      (urls : list string) :
  (forall n u, In u urls -> fetch_fails w n u) ->
  forall acc s,
  exists s',
    NewsScraper.fetch_loop w self limit urls acc s = (Ok acc, s') /\
    map snd (sent s') = map snd (sent s) ++ urls /\
    List.length (log s') = (List.length (log s) + List.length urls)%nat.
Proof.
  induction urls as [|u rest IH]; intros Hf acc s.
  - exists s. simpl. unfold ret. rewrite app_nil_r. repeat split. lia.
  - assert (Hu : fetch_fails w (List.length (sent s)) u) by (apply Hf; now left).
    apply fetch_fails_outcome in Hu. destruct Hu as [e He].
    simpl. unfold bind. rewrite fetch_article_run, (fetched_failed w _ _ _ He).
    destruct (IH (fun n u' H => Hf n u' (or_intror H)) acc
                 (logged ("Error fetching article " ++ u ++ ": " ++ str e)
                         (requested w (config self) u s)))
      as [s' [E [Hs Hl]]].
    exists s'. split; [exact E |]. split.
    + rewrite Hs. simpl. rewrite map_app, <- app_assoc. reflexivity.
    + rewrite Hl. simpl. rewrite length_app. simpl. lia.
Qed.

(** X11. When the fetch of every discovered URL fails, the batch is empty; still
    every discovered URL has been asked for, once and in order, and each
    failure has left one record in the log. *)
Theorem fetch_latest_articles_all_fail
        (w : World) (self : Scraper) (limit : Z) (s s1 : State)
        (urls : list string) :
  _get_article_urls self limit s = (Ok urls, s1) ->
  (forall n u, In u urls -> fetch_fails w n u) ->
  exists s',
    NewsScraper.fetch_latest_articles w self limit s = (Ok [], s') /\
    map snd (sent s') = map snd (sent s1) ++ urls /\
    List.length (log s') = (List.length (log s1) + List.length urls)%nat.
Proof.
  intros E Hf.
  destruct (fetch_loop_all_fail w self limit urls Hf [] s1) as [s' [El H]].
  exists s'. split; [| exact H].
  unfold NewsScraper.fetch_latest_articles, try_except, bind.
  rewrite E. now rewrite El.
Qed.

(** A scraper whose discovery is fixed: two URLs that cannot be fetched. *)
Definition unreachable_scraper : Scraper :=
  mk_Scraper NYTimesScraper.config
    NewsScraper._extract_title NewsScraper._extract_content
    NewsScraper._extract_author NewsScraper._extract_date
    NewsScraper._extract_summary NewsScraper._extract_categories
    (fun _ => ret [ "https://www.nytimes.com/2024/03/01/world/two.html";
                    "https://down.example/a" ]).

Lemma fetch_latest_articles_all_fail_example :
  exists s',
    NewsScraper.fetch_latest_articles Example.world unreachable_scraper 5
      Example.nytimes_state = (Ok [], s') /\
    map snd (sent s')
    = [ "https://www.nytimes.com/2024/03/01/world/two.html";
        "https://down.example/a" ] /\
    List.length (log s') = 3%nat.
Proof.
  apply (fetch_latest_articles_all_fail Example.world unreachable_scraper 5
           Example.nytimes_state Example.nytimes_state
           [ "https://www.nytimes.com/2024/03/01/world/two.html";
             "https://down.example/a" ] eq_refl).
  intros n u [<- | [<- | []]]; unfold fetch_fails; simpl; [lia | exact I].
Defined.

Lemma nytimes_fetch_article_served (w : World) (u : string) (s : State)
      (r : Response) :
  outcome w (List.length (sent s)) u = inr r ->
  markup_error r = None ->
  exists a s',
    NewsScraper.fetch_article w (NYTimesScraper.self w) u s = (Ok (Some a), s') /\
    url a = u.
Proof.
  intros H Hm. rewrite fetch_article_run, (fetched_served w _ _ _ H Hm).
  cbn [_extract_date NYTimesScraper.self]. rewrite nytimes_extract_date_run.
  do 2 eexists. split; reflexivity.
Qed.

Lemma nytimes_outcomes_all_served (w : World) (urls : list string) :
  (forall n u, In u urls ->
     exists r, outcome w n u = inr r /\ markup_error r = None) ->
  forall s,
    map url (somes (outcomes w (NYTimesScraper.self w) urls s)) = urls.
Proof.
  induction urls as [|u rest IH]; intros Hs s; [reflexivity |].
  destruct (Hs (List.length (sent s)) u (or_introl eq_refl)) as [r [Hr Hm]].
  destruct (nytimes_fetch_article_served w u s r Hr Hm) as [a [s' [E Hu]]].
  simpl. rewrite E. simpl. rewrite Hu. f_equal.
  apply IH. intros n u' H. apply Hs. now right.
Qed.

(** X12. When the front page and every URL discovered on it are served with
    markup that the parser accepts, the New York Times batch holds exactly one
    article for each discovered URL, in discovery order. *)
Theorem nytimes_batch_when_all_served
        (w : World) (limit : Z) (s : State) (front : Response) :
  outcome w (List.length (sent s)) "https://www.nytimes.com" = inr front ->
  markup_error front = None ->
  (forall n u, In u (NYTimesScraper.discover (text front) limit) ->
               exists r, outcome w n u = inr r /\ markup_error r = None) ->
  exists arts s',
    NewsScraper.fetch_latest_articles w (NYTimesScraper.self w) limit s
    = (Ok arts, s') /\
    map url arts = NYTimesScraper.discover (text front) limit.
Proof.
  intros Hf Hm Hs.
  assert (E : NYTimesScraper._get_article_urls w limit s =
              (Ok (NYTimesScraper.discover (text front) limit),
               requested w NYTimesScraper.config
                         (base_url NYTimesScraper.config) s)).
  { rewrite nytimes_get_article_urls_run.
    now rewrite (fetched_served w _ (base_url NYTimesScraper.config) _ Hf Hm). }
  destruct (fetch_latest_spec w (NYTimesScraper.self w) limit s _ _ E)
    as [s' E'].
  do 2 eexists. split; [exact E' |].
  rewrite <- firstn_map, (nytimes_outcomes_all_served w _ Hs).
  apply firstn_all2.
  pose proof (len_firstn_max limit
                (uniq_from [] (NYTimesDiscovery.candidates
                                 (base_url NYTimesScraper.config)
                                 (Soup.find_all "a" [AttrPresent "href"]
                                    (text front))))) as Hl.
  rewrite <- NYTimesDiscovery.nytimes_discover_spec in Hl.
  unfold len in Hl. lia.
Qed.

Lemma nytimes_batch_when_all_served_example :
  exists arts s',
    NewsScraper.fetch_latest_articles
      Example.world (NYTimesScraper.self Example.world) 1 Example.nytimes_state
    = (Ok arts, s') /\
    map url arts = ["https://www.nytimes.com/2024/03/01/world/one.html"].
Proof.
  apply (nytimes_batch_when_all_served Example.world 1 Example.nytimes_state
           (mk_Response 200 "OK" "https://www.nytimes.com" Example.front_page
                        None)
           eq_refl eq_refl).
  intros n u [<- | []]. eexists. split; reflexivity.
Defined.

(** ** Pacing of a whole batch *)

(** The requests sent so far are paced, and the stamp is the start time of
    the last one. *)
Definition well_paced (rl : Q) (s : State) : Prop :=
  paced rl (map fst (sent s)) /\ stamped s.

(** A method [_extract_date] that returns and only adds log records. *)
Definition date_only_logs (self : Scraper) : Prop :=
  forall soup s, exists d records,
    _extract_date self soup s = (Ok d, with_log s records).

Lemma well_paced_with_log (rl : Q) (s : State) (records : list (level * string)) :
  well_paced rl s -> well_paced rl (with_log s records).
Proof. intros H. exact H. Qed.

Lemma well_paced_requested (w : World) (cfg : Config) (url : string) (s : State) :
  (forall n, 0 <= oversleep w n)%Q ->
  well_paced (rate_limit cfg) s ->
  well_paced (rate_limit cfg) (requested w cfg url s).
Proof.
  intros Ho [Hp Hs].
  destruct (make_request_paced w cfg url s (Ho _) Hp Hs) as [H1 [H2 _]].
  rewrite make_request_run in H1, H2. split; assumption.
Qed.

Lemma fetch_article_well_paced (w : World) (self : Scraper) (url : string)
      (s : State) :
  (forall n, 0 <= oversleep w n)%Q -> date_only_logs self ->
  well_paced (rate_limit (config self)) s ->
  well_paced (rate_limit (config self))
             (snd (NewsScraper.fetch_article w self url s)).
Proof.
  intros Ho Hd Hs. rewrite fetch_article_run.
  pose proof (well_paced_requested w (config self) url s Ho Hs) as Hr.
  destruct (fetched w (List.length (sent s)) url) as [e | r]; [exact Hr |].
  destruct (Hd (text r) (requested w (config self) url s)) as [d [recs E]].
  rewrite E. exact Hr.
Qed.

Lemma fetch_loop_well_paced (w : World) (self : Scraper) (limit : Z)
      (urls : list string) :
  (forall n, 0 <= oversleep w n)%Q -> date_only_logs self ->
  forall acc s,
    well_paced (rate_limit (config self)) s ->
    well_paced (rate_limit (config self))
               (snd (NewsScraper.fetch_loop w self limit urls acc s)).
Proof.
  intros Ho Hd. induction urls as [|u rest IH]; intros acc s Hs; [exact Hs |].
  simpl. unfold bind.
  pose proof (fetch_article_well_paced w self u s Ho Hd Hs) as H1.
  destruct (fetch_article_total w self u s) as [r [s1 E]].
  rewrite E in *. simpl in H1.
  destruct r as [a |]; [| now apply IH].
  destruct (len (acc ++ [a]) >=? limit); [exact H1 | now apply IH].
Qed.

(** X13. A whole batch of the New York Times or of the BBC scraper keeps the
    pace: if the requests sent before were at least [rate_limit] apart, so
    are all the requests sent by the end of [fetch_latest_articles], the
    front page and every article included. *)
Theorem site_batch_is_paced (w : World) (limit : Z) (s : State) :
  (forall n, 0 <= oversleep w n)%Q ->
  paced 1 (map fst (sent s)) -> stamped s ->
  paced 1 (map fst (sent (snd (NewsScraper.fetch_latest_articles
                                 w (NYTimesScraper.self w) limit s)))) /\
  paced 1 (map fst (sent (snd (NewsScraper.fetch_latest_articles
                                 w (BBCScraper.self w) limit s)))).
Proof.
  intros Ho Hp Hs.
  assert (HN : date_only_logs (NYTimesScraper.self w)).
  { intros soup s0. do 2 eexists. apply nytimes_extract_date_run. }
  assert (HB : date_only_logs (BBCScraper.self w)).
  { intros soup s0. do 2 eexists. apply bbc_extract_date_run. }
  split.
  - unfold NewsScraper.fetch_latest_articles, try_except, bind.
    cbn [_get_article_urls NYTimesScraper.self].
    rewrite nytimes_get_article_urls_run.
    pose proof (well_paced_requested w NYTimesScraper.config
                  (base_url NYTimesScraper.config) s Ho (conj Hp Hs)) as Hr.
    destruct (fetched w (List.length (sent s)) (base_url NYTimesScraper.config))
      as [e | r].
    + apply (fetch_loop_well_paced w (NYTimesScraper.self w) limit [] Ho HN []).
      exact Hr.
    + pose proof (fetch_loop_well_paced w (NYTimesScraper.self w) limit
                    (NYTimesScraper.discover (text r) limit) Ho HN [] _ Hr) as H.
      destruct (fetch_loop_total w (NYTimesScraper.self w) limit
                  (NYTimesScraper.discover (text r) limit) []
                  (requested w NYTimesScraper.config
                             (base_url NYTimesScraper.config) s))
        as [arts [s' E]].
      rewrite E in *. apply H.
  - unfold NewsScraper.fetch_latest_articles, try_except, bind.
    cbn [_get_article_urls BBCScraper.self].
    rewrite bbc_get_article_urls_run.
    pose proof (well_paced_requested w BBCScraper.config
                  (base_url BBCScraper.config) s Ho (conj Hp Hs)) as Hr.
    destruct (fetched w (List.length (sent s)) (base_url BBCScraper.config))
      as [e | r].
    + apply (fetch_loop_well_paced w (BBCScraper.self w) limit [] Ho HB []).
      exact Hr.
    + pose proof (fetch_loop_well_paced w (BBCScraper.self w) limit
                    (BBCScraper.discover (text r) limit) Ho HB [] _ Hr) as H.
      destruct (fetch_loop_total w (BBCScraper.self w) limit
                  (BBCScraper.discover (text r) limit) []
                  (requested w BBCScraper.config
                             (base_url BBCScraper.config) s))
        as [arts [s' E]].
      rewrite E in *. apply H.
Qed.

Lemma site_batch_is_paced_example :
  paced 1 (map fst (sent (snd (NewsScraper.fetch_latest_articles
                                 Example.world
                                 (NYTimesScraper.self Example.world) 3
                                 Example.nytimes_state)))).
Proof.
  assert (Ho : forall n, (0 <= oversleep Example.world n)%Q).
  { intros n. simpl. lra. }
  exact (proj1 (site_batch_is_paced Example.world 3 Example.nytimes_state
                  Ho I (or_introl eq_refl))).
Defined.

(** ** The rate limit and the user agent *)

(** X14. [_respect_rate_limit] sleeps only when it has to.  When [rate_limit] or
    more has gone by since the stamp, the clock is left as it is; otherwise
    the wait ends [rate_limit] after the stamp (later by what the sleep
    overshoots).  Either way the stamp becomes the time after the wait, and
    neither the requests nor the log change. *)
Theorem respect_rate_limit_sleeps_only_when_needed
        (w : World) (cfg : Config) (s : State) :
  let s' := snd (NewsScraper._respect_rate_limit w cfg s) in
  fst (NewsScraper._respect_rate_limit w cfg s) = Ok tt /\
  last_request_time s' = clock s' /\
  sent s' = sent s /\ log s' = log s /\ user_agent s' = user_agent s /\
  ((rate_limit cfg <= clock s - last_request_time s)%Q -> clock s' = clock s) /\
  ((clock s - last_request_time s < rate_limit cfg)%Q ->
   (clock s' == last_request_time s + rate_limit cfg
                + oversleep w (List.length (sent s)))%Q).
Proof.
  unfold NewsScraper._respect_rate_limit, bind, time_time, get_state,
    time_sleep, set_last_request_time, logger_debug, ret.
  cbn [fst snd].
  destruct (Qle_bool (rate_limit cfg) (clock s - last_request_time s)) eqn:E;
    cbn [negb fst snd clock last_request_time sent log user_agent].
  - apply Qle_bool_iff in E. repeat split; auto. intros H. lra.
  - assert (~ (rate_limit cfg <= clock s - last_request_time s)%Q) as Hn.
    { intros H. apply Qle_bool_iff in H. congruence. }
    repeat split; auto.
    + intros H. contradiction.
    + intros _. ring.
Qed.

Lemma nth_mod_In (l : list string) (i : nat) :
  l <> [] -> In (nth (i mod List.length l) l EmptyString) l.
Proof.
  intros H. apply nth_In. apply Nat.mod_upper_bound.
  destruct l; [congruence | discriminate].
Qed.

(** X15. The pool of user agents is never empty (an empty or missing list given
    to the constructor is replaced by the four built-in entries), and the user
    agent in force, right after construction and after every request, is an
    entry of the pool. *)
Theorem user_agent_is_always_from_the_pool
        (w : World) (b : string) (ua : option (list string))
        (px : option (list (string * string))) (rl : option Q) :
  let cfg := NewsScraper.__init__ b ua px rl in
  user_agents cfg <> [] /\
  (ua = None \/ ua = Some [] ->
   user_agents cfg = NewsScraper.default_user_agents) /\
  (forall l, ua = Some l -> l <> [] -> user_agents cfg = l) /\
  List.length NewsScraper.default_user_agents = 4%nat /\
  (forall t0,
      In (user_agent (NewsScraper.initial_state w cfg t0)) (user_agents cfg)) /\
  (forall url s,
      In (user_agent (snd (NewsScraper._make_request w cfg url s)))
         (user_agents cfg)).
Proof.
  intros cfg.
  assert (Hne : user_agents cfg <> []).
  { subst cfg. destruct ua as [[| u us] |]; simpl; discriminate. }
  split; [exact Hne |]. split.
  { intros [-> | ->]; reflexivity. }
  split.
  { intros l -> Hl. destruct l; [congruence | reflexivity]. }
  split; [reflexivity |]. split.
  - intros t0. apply (nth_mod_In (user_agents cfg)). exact Hne.
  - intros url s. rewrite make_request_run.
    apply (nth_mod_In (user_agents cfg)). exact Hne.
Qed.

(** ** Author, summary and categories *)

Lemma hd_error_In {A} (l : list A) (x : A) : hd_error l = Some x -> In x l.
Proof. destruct l; simpl; intros H; inversion H; now left. Qed.

Lemma content_of_In (tag : node) (c : string) :
  In c (NYTimesScraper.content_of tag) ->
  c <> EmptyString /\ Soup.tag_get "content" tag = Some c.
Proof.
  unfold NYTimesScraper.content_of.
  destruct (Soup.tag_get "content" tag) as [[| ch v] |]; simpl; try tauto.
  intros [<- | []]. split; [discriminate | reflexivity].
Qed.

(** X16. A category of a New York Times article is never the empty string, and
    it is always the [content] attribute of a [meta] element of the page,
    one with [property="article:section"] or [property="article:tag"]; the
    section, when there is one, comes first.  The base class and the BBC
    scraper give no categories. *)
Theorem nytimes_categories_come_from_meta (soup : BeautifulSoup) :
  (forall c, In c (NYTimesScraper._extract_categories soup) ->
     c <> EmptyString /\
     exists tag,
       (In tag (Soup.find_all "meta" [AttrIs "property" "article:section"] soup) \/
        In tag (Soup.find_all "meta" [AttrIs "property" "article:tag"] soup)) /\
       Soup.tag_get "content" tag = Some c) /\
  (forall tag c,
     Soup.find "meta" [AttrIs "property" "article:section"] soup = Some tag ->
     Soup.tag_get "content" tag = Some c -> c <> EmptyString ->
     hd_error (NYTimesScraper._extract_categories soup) = Some c) /\
  (forall w, _extract_categories (BBCScraper.self w) soup = []) /\
  NewsScraper._extract_categories soup = [].
Proof.
  split; [| split; [| split; reflexivity]].
  - intros c H. unfold NYTimesScraper._extract_categories in H.
    apply in_app_or in H. destruct H as [H | H].
    + destruct (Soup.find "meta" [AttrIs "property" "article:section"] soup)
        as [tag |] eqn:E; [| contradiction].
      apply content_of_In in H. destruct H as [Hc Hg].
      split; [exact Hc |]. exists tag. split; [| exact Hg].
      left. apply hd_error_In. exact E.
    + apply in_flat_map in H. destruct H as [tag [Ht Hc]].
      apply content_of_In in Hc. destruct Hc as [Hc Hg].
      split; [exact Hc |]. exists tag. auto.
  - intros tag c E Hg Hc. unfold NYTimesScraper._extract_categories.
    rewrite E. unfold NYTimesScraper.content_of at 1. rewrite Hg.
    destruct c; [congruence | reflexivity].
Qed.

(** X17. The author (both site scrapers) and the summary (New York Times), when
    present, never begin or end with white space; the New York Times author
    is absent exactly when neither of its two selectors finds an element,
    and the base class knows no author and no summary. *)
Theorem author_and_summary_are_trimmed (soup : BeautifulSoup) :
  (forall x, NYTimesScraper._extract_author soup = Some x -> Str.strip x = x) /\
  (forall x, NYTimesScraper._extract_summary soup = Some x -> Str.strip x = x) /\
  (forall x, BBCScraper._extract_author soup = Some x -> Str.strip x = x) /\
  (NYTimesScraper._extract_author soup = None <->
   Soup.find "span" [AttrIs "itemprop" "name"] soup = None /\
   Soup.find "span" [AttrIs "class" "byline-author"] soup = None) /\
  NewsScraper._extract_author soup = None /\
  NewsScraper._extract_summary soup = None.
Proof.
  assert (Hs : forall (o : option node) x,
             option_map (fun t => Str.strip (Soup.text t)) o = Some x ->
             Str.strip x = x).
  { intros [t |] x H; inversion H. apply strip_strip. }
  split; [intros x; apply Hs |]. split; [intros x; apply Hs |].
  split; [intros x; apply Hs |]. split; [| split; reflexivity].
  unfold NYTimesScraper._extract_author.
  destruct (Soup.find "span" [AttrIs "itemprop" "name"] soup); simpl.
  - split; [discriminate | intros [H _]; discriminate].
  - destruct (Soup.find "span" [AttrIs "class" "byline-author"] soup); simpl.
    + split; [discriminate | intros [_ H]; discriminate].
    + tauto.
Qed.

(** ** Dates and the dictionary *)

Lemma new_valid (y mo d h mi s us : Z) (tz : option Z) (r : datetime) :
  Datetime.new y mo d h mi s us tz = Some r -> Datetime.valid r = true.
Proof.
  unfold Datetime.new.
  destruct (Datetime.valid (mk_datetime y mo d h mi s us tz)) eqn:E;
    [| discriminate].
  intros H. inversion H; subst. exact E.
Qed.

Lemma fromisoformat_valid (s : string) (d : datetime) :
  Datetime.fromisoformat s = Some d -> Datetime.valid d = true.
Proof.
  unfold Datetime.fromisoformat. intros H.
  repeat match type of H with
         | match ?x with _ => _ end = Some _ =>
             destruct x eqn:?; try discriminate
         end;
    eapply new_valid; eassumption.
Qed.

(** X18. A date that [_extract_date] returns is always a date that the
    [datetime] constructor accepts (month 1 to 12, a day of that month, hour
    below 24, an offset of less than a day, and so on), and returning a date
    adds nothing to the log. *)
Theorem extracted_dates_are_valid
        (soup : BeautifulSoup) (s s' : State) (d : datetime) :
  NYTimesScraper._extract_date soup s = (Ok (Some d), s') \/
  BBCScraper._extract_date soup s = (Ok (Some d), s') ->
  Datetime.valid d = true /\ s' = s.
Proof.
  rewrite nytimes_extract_date_run, bbc_extract_date_run.
  intros H.
  assert (E : extracted_date soup = Some d /\ s' = with_log s (date_log soup)).
  { destruct H as [H | H]; inversion H; auto. }
  destruct E as [E ->]. unfold extracted_date, date_log in *.
  destruct (datetime_attr soup) as [v |]; [| discriminate].
  rewrite E. split; [eapply fromisoformat_valid; eassumption |].
  apply with_log_nil.
Qed.

Lemma extracted_dates_are_valid_example :
  Datetime.valid utc_2024_03_01_noon = true /\
  Example.nytimes_state = Example.nytimes_state.
Proof.
  apply (extracted_dates_are_valid (time_tag "2024-03-01T12:00:00Z")
           Example.nytimes_state Example.nytimes_state utc_2024_03_01_noon).
  left. reflexivity.
Defined.

Lemma from_dict_to_dict (a : NewsArticle) :
  match date a with
  | Some d => Datetime.valid d = true
  | None => True
  end ->
  from_dict (Article.to_dict a) = Some a.
Proof.
  intros Hd. destruct a as [t c u so au dt su cats]. simpl in Hd.
  unfold from_dict, Article.to_dict, Article.__init__. cbn.
  destruct au as [au |], su as [su |], dt as [dt |]; cbn;
    rewrite ?(DatetimeFacts.fromisoformat_isoformat _ Hd); cbn;
    rewrite init_categories; reflexivity.
Qed.

(** X19. [to_dict] loses nothing: two articles with the same dictionary are the
    same article, field by field (their dates being dates that the
    [datetime] constructor accepts). *)
Theorem to_dict_is_injective (a b : NewsArticle) :
  match date a with Some d => Datetime.valid d = true | None => True end ->
  match date b with Some d => Datetime.valid d = true | None => True end ->
  Article.to_dict a = Article.to_dict b ->
  a = b.
Proof.
  intros Ha Hb E.
  pose proof (from_dict_to_dict a Ha) as Pa.
  pose proof (from_dict_to_dict b Hb) as Pb.
  rewrite E in Pa. rewrite Pa in Pb. now inversion Pb.
Qed.

Lemma to_dict_is_injective_example :
  sample_article
  = mk_NewsArticle "Test Title" "Test content" "https://example.com/article"
      "example.com" (Some "Test Author") (Some utc_2024_03_01_noon) None
      ["news"; "test"].
Proof.
  apply to_dict_is_injective; reflexivity.
Defined.

(** ** What [_make_request] hands back *)

(** X20. [_make_request] returns a response exactly when the network gave that
    response and its status is not an error status (400 to 599); a response
    with an error status is never returned, it is raised as an [HTTPError].
    Whether it returns or raises, the call has sent one request, to the URL
    given, at the time now stored in [last_request_time]. *)
Theorem make_request_returns_only_good_responses
        (w : World) (cfg : Config) (url : string) (s : State) :
  (forall r,
      fst (NewsScraper._make_request w cfg url s) = Ok r <->
      requests_get w (List.length (sent s)) url = inr r /\
      ~ (400 <= status_code r < 600)) /\
  (forall r,
      requests_get w (List.length (sent s)) url = inr r ->
      400 <= status_code r < 600 ->
      exists msg,
        fst (NewsScraper._make_request w cfg url s) = Raised (HTTPError msg)) /\
  (forall e,
      requests_get w (List.length (sent s)) url = inl e ->
      fst (NewsScraper._make_request w cfg url s) = Raised e) /\
  sent (snd (NewsScraper._make_request w cfg url s))
  = sent s ++ [(last_request_time (snd (NewsScraper._make_request w cfg url s)),
                url)].
Proof.
  rewrite make_request_run. cbn [fst snd]. unfold outcome.
  split; [| split; [| split]].
  - intros r. destruct (requests_get w (List.length (sent s)) url) as [e | r0].
    + split; [discriminate | intros [H _]; discriminate].
    + pose proof (http_error_msg_status r0) as Hst.
      destruct (NewsScraper.http_error_msg r0) as [msg |].
      * split; [discriminate |]. intros [H Hn]. inversion H; subst r0.
        exfalso. apply Hn. apply Hst. discriminate.
      * split.
        -- intros H. inversion H; subst r0. split; [reflexivity |].
           intros Hc. apply Hst in Hc. congruence.
        -- intros [H _]. inversion H. reflexivity.
  - intros r E Hc. rewrite E. apply http_error_msg_status in Hc.
    destruct (NewsScraper.http_error_msg r) as [msg |]; [eauto | congruence].
  - intros e E. rewrite E. reflexivity.
  - reflexivity.
Qed.
